(** * CudaDepthMapIntegration: the command-line driver [main.cxx]

    A shallow embedding of the driver that reads the command line, loads the
    depth maps with their calibration files, builds the grid matrix and hands
    everything to the reconstruction filter.

    - [double] values are IEEE binary64 numbers ([PrimFloat.float]).
    - [std::vector] is a [list]; [operator[]] outside the vector has no
      defined behaviour, which the embedding records as [Undefined].
    - Input streams carry their buffer and their [eofbit]/[failbit].
    - The program's globals that change while it runs, and everything it
      prints or asks of the VTK pipeline, live in a [World] threaded through
      a state monad. *)

From Stdlib Require Import PrimFloat Ascii String.
From stdpp Require Import base option list strings pretty gmap.

(** ** Scalars *)

Abbreviation double := PrimFloat.float.

(** A [double] object.  A local declared as [double value;] holds no
    determinate number until something is stored in it. *)
Inductive cell : Type :=
| Indeterminate
| Num (d : double).

(** [double v[3]]: three components read from a vector. *)
Definition vec3 : Type := double * double * double.

(** [vtkMath::Dot(const double a[3], const double b[3])]: the sum
    [a[0]*b[0] + a[1]*b[1] + a[2]*b[2]], each operation rounded to
    binary64. *)
Definition Dot (a b : vec3) : double :=
  let '(a0, a1, a2) := a in
  let '(b0, b1, b2) := b in
  (a0 * b0 + a1 * b1 + a2 * b2)%float.

(** ** Input streams *)

Module Stream.

Record istream : Type := mk {
  buf : string;      (* characters not yet read *)
  eofbit : bool;
  failbit : bool
}.

(** A stream freshly constructed over [s]. *)
Definition open (s : string) : istream :=
  {| buf := s; eofbit := false; failbit := false |}.

Definition good (s : istream) : bool := negb (eofbit s) && negb (failbit s).
Definition eof (s : istream) : bool := eofbit s.
Definition fail (s : istream) : bool := failbit s.

Definition setfail (s : istream) : istream :=
  {| buf := buf s; eofbit := eofbit s; failbit := true |}.

(** Characters up to the first [delim], and what follows that delimiter
    ([None] when the end of the buffer comes first). *)
Fixpoint take_line (delim : ascii) (s : string) : string * option string :=
  match s with
  | EmptyString => (EmptyString, None)
  | String c r =>
      if Ascii.eqb c delim then (EmptyString, Some r)
      else let '(l, k) := take_line delim r in (String c l, k)
  end.

Definition is_empty (s : string) : bool :=
  match s with EmptyString => true | _ => false end.

(** [std::getline(is, str, delim)].  When the stream is not good the
    sentry fails: [failbit] is set and [str] keeps its value.  Otherwise
    [str] is erased and filled up to the delimiter, which is consumed;
    reaching the end sets [eofbit], and [failbit] too when nothing was
    extracted. *)
Definition getline (s : istream) (str : string) (delim : ascii)
  : istream * string :=
  if good s then
    match take_line delim (buf s) with
    | (l, Some rest) => ({| buf := rest; eofbit := false; failbit := false |}, l)
    | (l, None) => ({| buf := EmptyString; eofbit := true; failbit := is_empty l |}, l)
    end
  else (setfail s, str).

Fixpoint skipws (s : string) : string :=
  match s with
  | String c r => if Ascii.is_space c then skipws r else s
  | EmptyString => EmptyString
  end.

Section Formatted.
(** The numeric conversion of the C++ library ([std::num_get]): from a
    buffer that starts with a character that is not white space, the
    converted number (if the characters read form one) and the
    characters left in the buffer. *)
Context (num_get : string → option double * string).

(** [is >> value] for a [double].  A failed sentry (stream not good, or
    only white space left) leaves [value] as it was; a failed
    conversion stores zero. *)
Definition extract_double (s : istream) (value : cell) : istream * cell :=
  if good s then
    match skipws (buf s) with
    | EmptyString =>
        ({| buf := EmptyString; eofbit := true; failbit := true |}, value)
    | String c r =>
        let '(v, rest) := num_get (String c r) in
        ({| buf := rest; eofbit := is_empty rest; failbit := bool_decide (v = None) |},
         Num (default 0%float v))
    end
  else (setfail s, value).
End Formatted.

End Stream.

Import Stream.

(** ** [SplitString] *)

(** The loop [while (std::getline(ss, item, delim)) elems.push_back(item);]
    run for at most [fuel] rounds; [None] when the rounds run out. *)
Fixpoint SplitString_loop (fuel : nat) (ss : istream) (item : string)
    (delim : ascii) (elems : list string) : option (list string) :=
  match fuel with
  | O => None
  | S fuel' =>
      let '(ss', item') := getline ss item delim in
      if fail ss' then Some elems
      else SplitString_loop fuel' ss' item' delim (elems ++ [item'])
  end.

Definition SplitString (s : string) (delim : ascii) (elems : list string)
  : option (list string) :=
  SplitString_loop (String.length s + 2) (Stream.open s) EmptyString delim elems.

(** ** VTK matrices and the data the pipeline passes around *)

(** [vtkMatrix3x3] and [vtkMatrix4x4] keep their elements in row-major
    order ([double Element[n][n]]). *)
Definition vtkMatrix3x3 : Type := list cell.
Definition vtkMatrix4x4 : Type := list cell.

Module Matrix3x3.
(** [vtkMatrix3x3::New()] is the identity. *)
Definition New : vtkMatrix3x3 :=
  Num <$> [1; 0; 0;
           0; 1; 0;
           0; 0; 1]%float.
Definition SetElement (i j : nat) (value : cell) (m : vtkMatrix3x3) : vtkMatrix3x3 :=
  <[3 * i + j := value]> m.
Definition GetElement (m : vtkMatrix3x3) (i j : nat) : option cell :=
  m !! (3 * i + j).
End Matrix3x3.

Module Matrix4x4.
(** [vtkMatrix4x4::New()] and [Identity()]. *)
Definition Identity : vtkMatrix4x4 :=
  Num <$> [1; 0; 0; 0;
           0; 1; 0; 0;
           0; 0; 1; 0;
           0; 0; 0; 1]%float.
Definition New : vtkMatrix4x4 := Identity.
Definition SetElement (i j : nat) (value : cell) (m : vtkMatrix4x4) : vtkMatrix4x4 :=
  <[4 * i + j := value]> m.
Definition GetElement (m : vtkMatrix4x4) (i j : nat) : option cell :=
  m !! (4 * i + j).
(** Row [i] of the matrix. *)
Definition Row (m : vtkMatrix4x4) (i : nat) : list cell :=
  take 4 (drop (4 * i) m).
End Matrix4x4.

(** A [vtkImageData]: what [vtkXMLImageDataReader] produces for a file, or
    the grid that [main] fills from the command line. *)
Inductive vtkImageData : Type :=
| ReaderOutput (FileName : string)
| Grid (Dimensions : Z * Z * Z) (Spacing Origin : vec3).

(** Modelled from the spec: [ReconstructionData] (ReconstructionData.h is
    not part of the sources at hand).  It is the Calibrated View of the
    data model: a depth map, the 3x3 intrinsic matrix K and the 4x4 pose
    matrix TR, each of them unset until its setter is called. *)
Record ReconstructionData : Type := {
  DepthMap : option vtkImageData;
  MatrixK : option vtkMatrix3x3;
  MatrixTR : option vtkMatrix4x4
}.

Module Data.
Definition New : ReconstructionData :=
  {| DepthMap := None; MatrixK := None; MatrixTR := None |}.
Definition SetDepthMap (d : vtkImageData) (r : ReconstructionData) :=
  {| DepthMap := Some d; MatrixK := MatrixK r; MatrixTR := MatrixTR r |}.
Definition SetMatrixK (k : vtkMatrix3x3) (r : ReconstructionData) :=
  {| DepthMap := DepthMap r; MatrixK := Some k; MatrixTR := MatrixTR r |}.
Definition SetMatrixTR (tr : vtkMatrix4x4) (r : ReconstructionData) :=
  {| DepthMap := DepthMap r; MatrixK := MatrixK r; MatrixTR := Some tr |}.
End Data.

(** The state of a [vtkCudaReconstructionFilter] as [main] configures it. *)
Record Filter : Type := {
  UseCuda : bool;
  RayPotentialRho : double;
  RayPotentialThickness : double;
  InputData : vtkImageData;
  DataList : list ReconstructionData;
  GridMatrix : vtkMatrix4x4
}.

(** Data flowing out of the pipeline. *)
Inductive vtkDataObject : Type :=
| FilterOutput (f : Filter)
| TransformOutput (m : vtkMatrix4x4) (input : vtkDataObject).

(** What a run does that can be seen from outside, in order. *)
Inductive event : Type :=
| cout (text : string)
| cerr (text : string)
| ReaderUpdate (FileName : string)
| FilterUpdate (f : Filter)
| TransformFilterUpdate (m : vtkMatrix4x4) (input : vtkDataObject)
| GridWriterWrite (FileName : string) (input : vtkDataObject).

(** Modelled from the spec: the error kinds of the reconstruction engine
    (its sources are not at hand), as the error handling design lists
    them. *)
Inductive EngineError : Type :=
| InvalidParameter
| InvalidGeometry
| InvalidView
| NoEvidence.

(** ** The program state and its monad *)

(** The globals filled while the program runs ("FILLED ATTRIBUTES"), and
    the events so far. *)
Record World : Type := {
  g_dataList : list ReconstructionData;
  g_gridMatrix : option vtkMatrix4x4;
  trace : list event
}.

Definition initial_world : World :=
  {| g_dataList := []; g_gridMatrix := None; trace := [] |}.

Inductive outcome (A : Type) : Type :=
| Ok (a : A) (w : World)              (* ran to completion *)
| Undefined                           (* an access outside a vector *)
| Raised (e : EngineError) (w : World) (* the engine refused; nothing catches it *)
| OutOfFuel.                          (* a loop was cut short by the model *)
Arguments Ok {A} a w.
Arguments Undefined {A}.
Arguments Raised {A} e w.
Arguments OutOfFuel {A}.

Definition M (A : Type) : Type := World → outcome A.

#[global] Instance M_ret : MRet M := λ A a w, Ok a w.
#[global] Instance M_bind : MBind M := λ A B f m w,
  match m w with
  | Ok a w' => f a w'
  | Undefined => Undefined
  | Raised e w' => Raised e w'
  | OutOfFuel => OutOfFuel
  end.

Definition emit (e : event) : M unit := λ w,
  Ok () {| g_dataList := g_dataList w; g_gridMatrix := g_gridMatrix w;
           trace := trace w ++ [e] |}.
Definition get_dataList : M (list ReconstructionData) := λ w, Ok (g_dataList w) w.
Definition set_dataList (l : list ReconstructionData) : M unit := λ w,
  Ok () {| g_dataList := l; g_gridMatrix := g_gridMatrix w; trace := trace w |}.
Definition get_gridMatrix : M (option vtkMatrix4x4) := λ w, Ok (g_gridMatrix w) w.
Definition set_gridMatrix (m : option vtkMatrix4x4) : M unit := λ w,
  Ok () {| g_dataList := g_dataList w; g_gridMatrix := m; trace := trace w |}.
Definition raise {A} (e : EngineError) : M A := λ w, Raised e w.

(** A value that exists only when an index is inside its vector. *)
Definition defined {A} (o : option A) : M A := λ w,
  match o with Some a => Ok a w | None => Undefined end.
(** A result that exists only when the loop computing it ended by itself. *)
Definition fuelled {A} (o : option A) : M A := λ w,
  match o with Some a => Ok a w | None => OutOfFuel end.

Definition endl : string := String "010"%char EmptyString.
(** The path separator the driver writes between folder and file name. *)
Definition backslash : string := String "092"%char EmptyString.

(** ** The command line *)

(** What [arg.Parse()] leaves behind: its result, the [help] flag, the text
    of [arg.GetHelp()], and the globals of "READ ARGUMENTS". *)
Record CommandLine : Type := {
  result : Z;
  help : bool;
  GetHelp : string;
  g_gridDims : list Z;
  g_gridSpacing : list double;
  g_gridOrigin : list double;
  g_gridVecX : list double;
  g_gridVecY : list double;
  g_gridVecZ : list double;
  g_outputGridFilename : string;
  g_pathFolder : string;
  g_depthMapContainer : string;
  g_KRTContainer : string;
  rayPotentialThick : double;
  rayPotentialRho : double;
  noCuda : bool;
  verbose : bool
}.

(** The same command line with another [--verbose]. *)
Definition with_verbose (v : bool) (a : CommandLine) : CommandLine :=
  {| result := result a; help := help a; GetHelp := GetHelp a;
     g_gridDims := g_gridDims a; g_gridSpacing := g_gridSpacing a;
     g_gridOrigin := g_gridOrigin a;
     g_gridVecX := g_gridVecX a; g_gridVecY := g_gridVecY a;
     g_gridVecZ := g_gridVecZ a;
     g_outputGridFilename := g_outputGridFilename a;
     g_pathFolder := g_pathFolder a;
     g_depthMapContainer := g_depthMapContainer a;
     g_KRTContainer := g_KRTContainer a;
     rayPotentialThick := rayPotentialThick a;
     rayPotentialRho := rayPotentialRho a;
     noCuda := noCuda a; verbose := v |}.

Definition EXIT_SUCCESS : Z := 0.
Definition EXIT_FAILURE : Z := 1.

(** The first three elements behind [&v[0]]; [None] when the vector holds
    fewer, where reading them has no defined behaviour. *)
Definition array3 {A} (v : list A) : option (A * A * A) :=
  x ← v !! 0; y ← v !! 1; z ← v !! 2; Some (x, y, z).

(** ** The functions of [main.cxx] *)

(** Show information on console if we are on verbose mode *)
Definition ShowInformation (a : CommandLine) (information : string) : M unit :=
  if verbose a then emit (cout (information +:+ endl +:+ endl)) else mret ().

(** Check if input vectors are orthogonals (gridVecX, gridVecY, gridVecZ).
    [None] when one of the nine components lies outside its vector. *)
Definition AreVectorsOrthogonal (a : CommandLine) : option bool :=
  X ← array3 (g_gridVecX a);
  Y ← array3 (g_gridVecY a);
  Z ← array3 (g_gridVecZ a);
  let XY := Dot X Y in
  let YZ := Dot Y Z in
  let ZX := Dot Z X in
  if ((XY =? 0) && (YZ =? 0) && (ZX =? 0))%float then Some true
  else Some false.

(** Read input argument and check if they are valid *)
Definition ReadArguments (a : CommandLine) : M bool :=
  if (result a =? 0)%Z || help a then
    emit (cout (GetHelp a));; mret false
  else if String.eqb (g_outputGridFilename a) EmptyString
          || String.eqb (g_depthMapContainer a) EmptyString
          || String.eqb (g_KRTContainer a) EmptyString then
    emit (cerr ("Error arguments." +:+ endl));;
    emit (cerr (GetHelp a));;
    mret false
  else
    orthogonal ← defined (AreVectorsOrthogonal a);
    if negb orthogonal then
      emit (cerr ("Given vectors are not orthogonals" +:+ endl));;
      mret false
    else mret true.

Section Driver.

(** [std::num_get] and [std::to_string(double)] of the C++ library, the
    files that can be opened with their contents, and the time the filter
    reports for its last run. *)
Context (num_get : string → option double * string).
Context (to_string : double → string).
Context (fs : gmap string string).
Context (ExecutionTime : double).

(** [for (int j = 0; j < 3; j++) { double value; iss >> value;
    m->SetElement(i, j, value); }] with [set j] for the store. *)
Definition read_three (set : nat → cell → list cell → list cell)
    (iss : istream) (m : list cell) : istream * list cell :=
  foldl (λ '(iss, m) j,
           let '(iss, value) := extract_double num_get iss Indeterminate in
           (iss, set j value m))
        (iss, m) [0; 1; 2].

(** [for (int i = 0; i < 3; i++) { getline(file, line);
    std::istringstream iss(line); ... }] *)
Definition read_rows (set : nat → nat → cell → list cell → list cell)
    (file : istream) (line : string) (m : list cell)
  : istream * string * list cell :=
  foldl (λ '(file, line, m) i,
           let '(file, line) := getline file line "010" in
           let iss := Stream.open line in
           let '(_, m) := read_three (set i) iss m in
           (file, line, m))
        (file, line, m) [0; 1; 2].

(** Read .krtd file which contains 2 matrix *)
Definition ReadKrtdFile (filename : string)
    (matrixK : vtkMatrix3x3) (matrixTR : vtkMatrix4x4)
  : M (bool * vtkMatrix3x3 * vtkMatrix4x4) :=
  match fs !! filename with
  | None =>
      emit (cerr ("Unable to open krtd file : " +:+ filename +:+ endl));;
      mret (false, matrixK, matrixTR)
  | Some content =>
      let file := Stream.open content in
      let line := EmptyString in
      (* Get matrix K *)
      let '(file, line, matrixK) :=
        read_rows Matrix3x3.SetElement file line matrixK in
      let '(file, line) := getline file line "010" in
      (* Get matrix R *)
      let '(file, line, matrixTR) :=
        read_rows Matrix4x4.SetElement file line matrixTR in
      let '(file, line) := getline file line "010" in
      (* Get matrix T *)
      let '(file, line) := getline file line "010" in
      let iss := Stream.open line in
      let '(_, matrixTR) :=
        read_three (λ i, Matrix4x4.SetElement i 3) iss matrixTR in
      (* Finalize matrix TR *)
      let matrixTR :=
        foldl (λ m j, Matrix4x4.SetElement 3 j (Num 0) m) matrixTR [0; 1; 2; 3] in
      let matrixTR := Matrix4x4.SetElement 3 3 (Num 1) matrixTR in
      mret (true, matrixK, matrixTR)
  end.

(** Where the loop of [CreateReconstructionData] stands: the two open
    container files and the two path variables declared before it. *)
Record Containers : Type := {
  depthMapContainer : istream;
  matrixContainer : istream;
  depthMapPath : string;
  matrixPath : string
}.

(** The loop [while (!depthMapContainer.eof()) { ... }], for at most
    [fuel] rounds.  [elems[elems.size() - 1]] is outside [elems] exactly
    when [elems] is empty. *)
Fixpoint ReadContainers (fuel : nat) (a : CommandLine) (c : Containers)
  : M unit :=
  match fuel with
  | O => λ _, OutOfFuel
  | S fuel' =>
      if eof (depthMapContainer c) then mret ()
      else
        (* DEPTH MAP *)
        let '(dmc, depthMapPath) :=
          getline (depthMapContainer c) (depthMapPath c) "010" in
        elems ← fuelled (SplitString depthMapPath "/" []);
        if (length elems =? 0)%nat then
          ReadContainers fuel' a
            {| depthMapContainer := dmc; matrixContainer := matrixContainer c;
               depthMapPath := depthMapPath; matrixPath := matrixPath c |}
        else
          name ← defined (elems !! (length elems - 1));
          let depthMapPath := g_pathFolder a +:+ backslash +:+ name in
          emit (ReaderUpdate depthMapPath);;
          (* MATRIX *)
          let '(mc, matrixPath) :=
            getline (matrixContainer c) (matrixPath c) "010" in
          elems ← fuelled (SplitString matrixPath "/" []);
          name ← defined (elems !! (length elems - 1));
          let matrixPath := g_pathFolder a +:+ backslash +:+ name in
          let depthMapMatrixK := Matrix3x3.New in
          let depthMapMatrixTR := Matrix4x4.New in
          '(isReadOk, depthMapMatrixK, depthMapMatrixTR) ←
            ReadKrtdFile matrixPath depthMapMatrixK depthMapMatrixTR;
          let c' := {| depthMapContainer := dmc; matrixContainer := mc;
                       depthMapPath := depthMapPath; matrixPath := matrixPath |} in
          (* Skip the creation of a new data if matrix is not readable *)
          if negb isReadOk then ReadContainers fuel' a c'
          else
            (* CREATE DATA *)
            let data := Data.New in
            let data := Data.SetDepthMap (ReaderOutput depthMapPath) data in
            let data := Data.SetMatrixK depthMapMatrixK data in
            let data := Data.SetMatrixTR depthMapMatrixTR data in
            dataList ← get_dataList;
            set_dataList (dataList ++ [data]);;
            ReadContainers fuel' a c'
  end.

(** Read all depth map and matrix file to create a list of
    'ReconstructionData' required to launch the process *)
Definition CreateReconstructionData (a : CommandLine) : M bool :=
  ShowInformation a "Read depth map and matrix files...";;
  let dmapGlobalFile :=
    g_pathFolder a +:+ backslash +:+ g_depthMapContainer a in
  let krtGlobalFile :=
    g_pathFolder a +:+ backslash +:+ g_KRTContainer a in
  (* Open the files which contains depthMap and matrix files path *)
  match fs !! dmapGlobalFile, fs !! krtGlobalFile with
  | Some dmap, Some krt =>
      set_dataList [];;
      ReadContainers (String.length dmap + 2) a
        {| depthMapContainer := Stream.open dmap;
           matrixContainer := Stream.open krt;
           depthMapPath := EmptyString; matrixPath := EmptyString |};;
      (* If there is no enough data, don't launch process *)
      dataList ← get_dataList;
      if (length dataList =? 0)%nat then mret false
      else
        let info := pretty (length dataList) +:+ " depth map have been loaded." in
        ShowInformation a info;;
        mret true
  | _, _ =>
      emit (cerr ("Unable to open file which contains depth map or matrix path."
                  +:+ endl));;
      mret false
  end.

(** Construct a vtkMatrix4x4 from grid vec X, Y and Z *)
Definition CreateGridMatrixFromInput (a : CommandLine) : M unit :=
  let X i := defined (g_gridVecX a !! i) in
  let Y i := defined (g_gridVecY a !! i) in
  let Z i := defined (g_gridVecZ a !! i) in
  let gridMatrix := Matrix4x4.Identity in
  (* Fill matrix *)
  v ← X 0; let gridMatrix := Matrix4x4.SetElement 0 0 (Num v) gridMatrix in
  v ← X 1; let gridMatrix := Matrix4x4.SetElement 0 1 (Num v) gridMatrix in
  v ← X 2; let gridMatrix := Matrix4x4.SetElement 0 2 (Num v) gridMatrix in
  v ← Y 0; let gridMatrix := Matrix4x4.SetElement 1 0 (Num v) gridMatrix in
  v ← Y 1; let gridMatrix := Matrix4x4.SetElement 1 1 (Num v) gridMatrix in
  v ← Y 2; let gridMatrix := Matrix4x4.SetElement 1 2 (Num v) gridMatrix in
  v ← Z 0; let gridMatrix := Matrix4x4.SetElement 2 0 (Num v) gridMatrix in
  v ← Z 1; let gridMatrix := Matrix4x4.SetElement 2 1 (Num v) gridMatrix in
  v ← Z 2; let gridMatrix := Matrix4x4.SetElement 2 2 (Num v) gridMatrix in
  set_gridMatrix (Some gridMatrix);;
  (* Debug information *)
  x0 ← X 0; y0 ← Y 0; z0 ← Z 0;
  let l1 := to_string x0 +:+ "  " +:+ to_string y0 +:+ "  " +:+ to_string z0 +:+ endl in
  x1 ← X 1; y1 ← Y 1; z1 ← Z 1;
  let l2 := to_string x1 +:+ "  " +:+ to_string y1 +:+ "  " +:+ to_string z1 +:+ endl in
  x2 ← X 2; y2 ← Y 2; z2 ← Z 2;
  let l3 := to_string x2 +:+ "  " +:+ to_string y2 +:+ "  " +:+ to_string z2 +:+ endl in
  let info := "Reconstruct grid matrix : " +:+ endl +:+ l1 +:+ l2 +:+ l3 in
  ShowInformation a info.

(** Modelled from the spec: [SetRayPotentialRho] and
    [SetRayPotentialThickness] of [vtkCudaReconstructionFilter], whose
    sources are not at hand.  Together they are the engine's [configure]
    operation, which "fails with InvalidParameter if either value is
    <= 0". *)
Definition SetRayPotentialRho (rho : double) : M unit :=
  if (rho <=? 0)%float then raise InvalidParameter else mret ().
Definition SetRayPotentialThickness (thickness : double) : M unit :=
  if (thickness <=? 0)%float then raise InvalidParameter else mret ().

(** Main function *)
Definition main (a : CommandLine) : M Z :=
  ok ← ReadArguments a;
  if negb ok then mret EXIT_FAILURE
  else
    ShowInformation a "---START---";;
    (* Read and create a list of ReconstructionData *)
    ok ← CreateReconstructionData a;
    if negb ok then
      emit (cerr ("Error during ReconstructionData construction" +:+ endl));;
      mret EXIT_FAILURE
    else
      (* Create grid matrix from VecXYZ *)
      CreateGridMatrixFromInput a;;
      (* Generate grid from arguments *)
      dims ← defined (array3 (g_gridDims a));
      spacing ← defined (array3 (g_gridSpacing a));
      origin ← defined (array3 (g_gridOrigin a));
      let grid := Grid dims spacing origin in
      ShowInformation a "** Launch reconstruction...";;
      (* Launch reconstruction process *)
      let useCuda := if noCuda a then false else true in
      SetRayPotentialRho (rayPotentialRho a);;
      SetRayPotentialThickness (rayPotentialThick a);;
      dataList ← get_dataList;
      gridMatrix ← get_gridMatrix;
      gridMatrix ← defined gridMatrix;
      let cudaReconstructionFilter :=
        {| UseCuda := useCuda;
           RayPotentialRho := rayPotentialRho a;
           RayPotentialThickness := rayPotentialThick a;
           InputData := grid;
           DataList := dataList;
           GridMatrix := gridMatrix |} in
      emit (FilterUpdate cudaReconstructionFilter);;
      let time := ExecutionTime in
      let message := "Execution time : " +:+ to_string time +:+ " s" in
      ShowInformation a message;;
      ShowInformation a "** Apply grid matrix to the reconstruction output...";;
      let filterOutput := FilterOutput cudaReconstructionFilter in
      emit (TransformFilterUpdate gridMatrix filterOutput);;
      let outputGrid := TransformOutput gridMatrix filterOutput in
      ShowInformation a "** Save output...";;
      emit (GridWriterWrite (g_outputGridFilename a) outputGrid);;
      (* Clean pointers *)
      set_gridMatrix None;;
      set_dataList [];;
      ShowInformation a "---END---";;
      mret EXIT_SUCCESS.

End Driver.

(** * The vocabulary of the properties *)

(** [wp m Q E w]: started in [w], [m] does not run out of fuel; if it
    completes, [Q] holds of its value and final state; if the engine
    refuses, [E] holds.  Nothing is said of a run that leaves the defined
    behaviour of the language. *)
Definition wp {A} (m : M A) (Q : A → World → Prop)
    (E : EngineError → World → Prop) (w : World) : Prop :=
  match m w with
  | Ok a w' => Q a w'
  | Raised e w' => E e w'
  | Undefined => True
  | OutOfFuel => False
  end.

Definition add_event (e : event) (w : World) : World :=
  {| g_dataList := g_dataList w; g_gridMatrix := g_gridMatrix w;
     trace := trace w ++ [e] |}.

(** The world after [ShowInformation a s]. *)
Definition shown (a : CommandLine) (s : string) (w : World) : World :=
  if verbose a then add_event (cout (s +:+ endl +:+ endl)) w else w.

(** Console output and the reading of a depth map. *)
Definition benign (e : event) : Prop :=
  match e with
  | cout _ | cerr _ | ReaderUpdate _ => True
  | FilterUpdate _ | TransformFilterUpdate _ _ | GridWriterWrite _ _ => False
  end.

(** Neither the reconstruction filter nor the transform nor the grid
    writer has run. *)
Definition no_fusion (w : World) : Prop := Forall benign (trace w).

(** Each of the three direction vectors holds at least three values. *)
Definition three_components (a : CommandLine) : Prop :=
  3 ≤ length (g_gridVecX a) ∧ 3 ≤ length (g_gridVecY a) ∧
  3 ≤ length (g_gridVecZ a).

(** The checks of [ReadArguments] that come before the vectors are looked
    at: parsing worked, no [--help], and the three file names are there. *)
Definition arguments_parsed (a : CommandLine) : Prop :=
  result a ≠ 0%Z ∧ help a = false ∧
  g_outputGridFilename a ≠ EmptyString ∧ g_depthMapContainer a ≠ EmptyString ∧
  g_KRTContainer a ≠ EmptyString.

(** The three pairwise dot products of the direction vectors are zero. *)
Definition pairwise_orthogonal (a : CommandLine) : Prop :=
  ∃ X Y Z,
    array3 (g_gridVecX a) = Some X ∧ array3 (g_gridVecY a) = Some Y ∧
    array3 (g_gridVecZ a) = Some Z ∧
    (Dot X Y =? 0)%float = true ∧ (Dot Y Z =? 0)%float = true ∧
    (Dot Z X =? 0)%float = true.

(** The run gets past [ReadArguments]. *)
Definition proceeds (a : CommandLine) : Prop :=
  ∃ w, ReadArguments a initial_world = Ok true w.

(** Rows X, Y and Z inside the identity. *)
Definition grid_matrix (X Y Z : vec3) : vtkMatrix4x4 :=
  let '(x0, x1, x2) := X in
  let '(y0, y1, y2) := Y in
  let '(z0, z1, z2) := Z in
  Num <$> [x0; x1; x2; 0;
           y0; y1; y2; 0;
           z0; z1; z2; 0;
           0;  0;  0;  1]%float.

(** Component [j] of a vector of three. *)
Definition component (v : vec3) (j : nat) : option double :=
  let '(v0, v1, v2) := v in [v0; v1; v2] !! j.

(** The ray-potential parameters pass the engine's check. *)
Definition parameters_accepted (a : CommandLine) : Prop :=
  (rayPotentialRho a <=? 0)%float = false ∧
  (rayPotentialThick a <=? 0)%float = false.

(** A stream that is not at its end has not failed either. *)
Definition sane (s : istream) : Prop := eofbit s = false → failbit s = false.

(** A bound on the rounds [while (!s.eof()) getline(s, ...)] still makes. *)
Definition rounds_left (s : istream) : nat :=
  if eofbit s then 0 else S (String.length (buf s)).

(** A view whose three parts are set, the two matrices being those that
    [ReadKrtdFile] read from a calibration file that opens. *)
Definition calibrated (num_get : string → option double * string)
    (fs : gmap string string) (d : ReconstructionData) : Prop :=
  ∃ image path K TR,
    d = {| DepthMap := Some image; MatrixK := Some K; MatrixTR := Some TR |} ∧
    is_Some (fs !! path) ∧
    ∀ w, ReadKrtdFile num_get fs path Matrix3x3.New Matrix4x4.New w
         = Ok (true, K, TR) w.

(** What the loading leaves true of the world it started in. *)
Definition loaded_from (num_get : string → option double * string)
    (fs : gmap string string) (w w' : World) : Prop :=
  (no_fusion w → no_fusion w') ∧ g_gridMatrix w' = g_gridMatrix w ∧
  Forall (calibrated num_get fs) (g_dataList w').

(** The filter was handed what the command line and the loading gave. *)
Definition fed (num_get : string → option double * string)
    (fs : gmap string string) (a : CommandLine) (f : Filter) : Prop :=
  Forall (calibrated num_get fs) (DataList f) ∧ DataList f ≠ [] ∧
  RayPotentialRho f = rayPotentialRho a ∧
  RayPotentialThickness f = rayPotentialThick a.

(** A validation step failed: the arguments, the orthogonality of the
    vectors, or the construction of the reconstruction data. *)
Definition validation_fails (num_get : string → option double * string)
    (fs : gmap string string) (a : CommandLine) : Prop :=
  ¬ arguments_parsed a ∨
  AreVectorsOrthogonal a = Some false ∨
  ∃ w1 w2,
    ReadArguments a initial_world = Ok true w1 ∧
    (ShowInformation a "---START---";;
     CreateReconstructionData num_get fs a) w1 = Ok false w2.

(** The run was turned down without any work by the pipeline. *)
Definition rejected (o : outcome Z) : Prop :=
  match o with
  | Ok c w => c = EXIT_FAILURE ∧ no_fusion w
  | Raised e w => e = InvalidParameter ∧ no_fusion w
  | Undefined => True
  | OutOfFuel => False
  end.

Definition is_cout (e : event) : bool :=
  match e with cout _ => true | _ => false end.

(** A trace without what went to the standard output. *)
Definition silent (tr : list event) : list event :=
  List.filter (λ e, negb (is_cout e)) tr.

(** The world with its standard output forgotten. *)
Definition hush (w : World) : World :=
  {| g_dataList := g_dataList w; g_gridMatrix := g_gridMatrix w;
     trace := silent (trace w) |}.

Definition hush_outcome {A} (o : outcome A) : outcome A :=
  match o with
  | Ok a w => Ok a (hush w)
  | Raised e w => Raised e (hush w)
  | Undefined => Undefined
  | OutOfFuel => OutOfFuel
  end.

(** From worlds that differ in their standard output only, [m] and [m']
    end alike, again up to the standard output. *)
Definition alike {A} (m m' : M A) : Prop :=
  ∀ w w', hush w = hush w' → hush_outcome (m w) = hush_outcome (m' w').

(** ** Pieces of a string *)

(** [c] occurs in [s]. *)
Fixpoint contains (c : ascii) (s : string) : bool :=
  match s with
  | EmptyString => false
  | String x r => Ascii.eqb x c || contains c r
  end.

(** The pieces with [delim] written between them. *)
Fixpoint join (delim : ascii) (pieces : list string) : string :=
  match pieces with
  | [] => EmptyString
  | [p] => p
  | p :: ps => p +:+ String delim (join delim ps)
  end.

(** The pieces that end at each [delim] of [s], read character by
    character; [cur] holds the characters of the piece being read.  What
    follows the last delimiter is a piece unless it is empty. *)
Fixpoint pieces_from (delim : ascii) (s : string) (cur : string)
  : list string :=
  match s with
  | EmptyString => if is_empty cur then [] else [cur]
  | String c r =>
      if Ascii.eqb c delim then cur :: pieces_from delim r EmptyString
      else pieces_from delim r (cur +:+ String c EmptyString)
  end.

(** ** Lines of a file *)

(** The lines [ls], each ended by a newline, followed by [rest]. *)
Definition text_lines (ls : list string) (rest : string) : string :=
  foldr (λ l acc, l +:+ String "010" acc) rest ls.

(** The characters of [s] before its first newline. *)
Definition first_line (s : string) : string := (take_line "010" s).1.

(** The values that [iss >> value], done three times on a fresh
    [istringstream] over [line], stores in three fresh [double]s. *)
Definition three_values (num_get : string → option double * string)
    (line : string) : cell * cell * cell :=
  let iss := Stream.open line in
  let '(iss, v0) := extract_double num_get iss Indeterminate in
  let '(iss, v1) := extract_double num_get iss Indeterminate in
  let '(_, v2) := extract_double num_get iss Indeterminate in
  (v0, v1, v2).

(** A row of three values. *)
Definition row3 (v : cell * cell * cell) : list cell :=
  let '(v0, v1, v2) := v in [v0; v1; v2].

(** The matrix TR with rotation rows [r0], [r1], [r2] and translation
    [t]. *)
Definition pose_matrix (r0 r1 r2 t : cell * cell * cell) : vtkMatrix4x4 :=
  let '(t0, t1, t2) := t in
  row3 r0 ++ [t0] ++ row3 r1 ++ [t1] ++ row3 r2 ++ [t2]
  ++ (Num <$> [0; 0; 0; 1]%float).

(** ** Events of a run, by kind *)

Definition is_reader (e : event) : bool :=
  match e with ReaderUpdate _ => true | _ => false end.

Definition is_cerr (e : event) : bool :=
  match e with cerr _ => true | _ => false end.

Definition is_pipeline (e : event) : bool :=
  match e with
  | FilterUpdate _ | TransformFilterUpdate _ _ | GridWriterWrite _ _ => true
  | cout _ | cerr _ | ReaderUpdate _ => false
  end.

(** How many depth maps were read, how many lines went to the error
    output, and what the pipeline did. *)
Definition reads (tr : list event) : nat := length (List.filter is_reader tr).
Definition errors (tr : list event) : nat := length (List.filter is_cerr tr).
Definition pipeline (tr : list event) : list event :=
  List.filter is_pipeline tr.

(** The events of loading: depth maps read, error lines, and lines on the
    standard output in verbose mode only. *)
Definition expected (a : CommandLine) (e : event) : Prop :=
  match e with
  | cout _ => verbose a = true
  | cerr _ | ReaderUpdate _ => True
  | FilterUpdate _ | TransformFilterUpdate _ _ | GridWriterWrite _ _ => False
  end.

(** Nothing on the standard output unless in verbose mode. *)
Definition announced (a : CommandLine) (e : event) : Prop :=
  match e with cout _ => verbose a = true | _ => True end.

(** The depth map of the view was read, in [tr], from the path made of
    the data folder, a backslash and a name that holds no slash.  The
    name may hold backslashes: nothing is said of the directory in which
    the file sits. *)
Definition read_by_name (a : CommandLine) (tr : list event)
    (d : ReconstructionData) : Prop :=
  ∃ name,
    DepthMap d = Some (ReaderOutput (g_pathFolder a +:+ backslash +:+ name)) ∧
    contains "/" name = false ∧
    ReaderUpdate (g_pathFolder a +:+ backslash +:+ name) ∈ tr.

(** The two container files open. *)
Definition containers_open (fs : gmap string string) (a : CommandLine)
  : Prop :=
  is_Some (fs !! (g_pathFolder a +:+ backslash +:+ g_depthMapContainer a)) ∧
  is_Some (fs !! (g_pathFolder a +:+ backslash +:+ g_KRTContainer a)).

(** The help text or an error line was printed. *)
Definition reported (a : CommandLine) (tr : list event) : Prop :=
  cout (GetHelp a) ∈ tr ∨ ∃ s, cerr s ∈ tr.

(** The events of a run that ended, by itself or by the engine's
    refusal. *)
Definition final_trace (o : outcome Z) : list event :=
  match o with
  | Ok _ w | Raised _ w => trace w
  | Undefined | OutOfFuel => []
  end.

(** The filter as [main] configures it from the command line. *)
Definition configured (a : CommandLine) (views : list ReconstructionData)
    (f : Filter) : Prop :=
  ∃ X Y Z dims spacing origin,
    array3 (g_gridVecX a) = Some X ∧ array3 (g_gridVecY a) = Some Y ∧
    array3 (g_gridVecZ a) = Some Z ∧
    array3 (g_gridDims a) = Some dims ∧
    array3 (g_gridSpacing a) = Some spacing ∧
    array3 (g_gridOrigin a) = Some origin ∧
    f = {| UseCuda := negb (noCuda a);
           RayPotentialRho := rayPotentialRho a;
           RayPotentialThickness := rayPotentialThick a;
           InputData := Grid dims spacing origin;
           DataList := views;
           GridMatrix := grid_matrix X Y Z |}.

(** The filter, the transform and the writer ran once each, in this
    order, the transform with the grid matrix of the filter and the
    writer on the output file of the command line. *)
Definition grid_written (a : CommandLine) (w : World) : Prop :=
  ∃ views f,
    views ≠ [] ∧ configured a views f ∧
    pipeline (trace w)
    = [FilterUpdate f;
       TransformFilterUpdate (GridMatrix f) (FilterOutput f);
       GridWriterWrite (g_outputGridFilename a)
         (TransformOutput (GridMatrix f) (FilterOutput f))].

(** The depth maps that the events of [tr] read, in order. *)
Definition depth_maps_read (tr : list event) : list vtkImageData :=
  omap (λ e, match e with
             | ReaderUpdate p => Some (ReaderOutput p)
             | _ => None
             end) tr.

(** The two matrices of the view are those that [ReadKrtdFile] read from
    the path made of the data folder, a backslash and a name that holds
    no slash.  The name may hold backslashes: nothing is said of the
    directory in which the file sits. *)
Definition calibrated_by_name
    (num_get : string → option double * string) (fs : gmap string string)
    (a : CommandLine) (d : ReconstructionData) : Prop :=
  ∃ name K TR,
    contains "/" name = false ∧
    MatrixK d = Some K ∧ MatrixTR d = Some TR ∧
    ∀ w, ReadKrtdFile num_get fs (g_pathFolder a +:+ backslash +:+ name)
           Matrix3x3.New Matrix4x4.New w
         = Ok (true, K, TR) w.

(** The number of lines of [s] that hold at least one character; [seen]
    tells whether the line being read already holds one. *)
Fixpoint count_lines (s : string) (seen : bool) : nat :=
  match s with
  | EmptyString => if seen then 1 else 0
  | String c r =>
      if Ascii.eqb c "010" then (if seen then 1 else 0) + count_lines r false
      else count_lines r true
  end.

Definition nonblank_lines (s : string) : nat := count_lines s false.

(** The non-empty lines that a stream still holds. *)
Definition pending_lines (s : istream) : nat :=
  if eofbit s then 0 else nonblank_lines (buf s).

(** The grid dimensions, spacing and origin hold three values each. *)
Definition grid_complete (a : CommandLine) : Prop :=
  3 ≤ length (g_gridDims a) ∧ 3 ≤ length (g_gridSpacing a) ∧
  3 ≤ length (g_gridOrigin a).

(** * Sample inputs *)

(** A [num_get] that reads unsigned decimal integers: the value of a
    character from its code, 48 being the code of the digit zero. *)
Definition digit_value (c : ascii) : option double :=
  let code := nat_of_ascii c in
  if (48 <=? code)%nat
  then [0; 1; 2; 3; 4; 5; 6; 7; 8; 9]%float !! (code - 48)
  else None.

Fixpoint read_digits (s : string) (acc : option double)
  : option double * string :=
  match s with
  | String c r =>
      match digit_value c with
      | Some d => read_digits r (Some (default 0 acc * 10 + d)%float)
      | None => (acc, s)
      end
  | EmptyString => (acc, EmptyString)
  end.

Definition digits_num_get (s : string) : option double * string :=
  read_digits s None.

(** A [to_string] that prints every number alike. *)
Definition blank_to_string (_ : double) : string := "?".

(** One calibration file: K, R and T, with blank lines between them. *)
Definition sample_krtd : string :=
  "1 0 0" +:+ endl +:+ "0 1 0" +:+ endl +:+ "0 0 1" +:+ endl +:+ endl +:+
  "1 0 0" +:+ endl +:+ "0 1 0" +:+ endl +:+ "0 0 1" +:+ endl +:+ endl +:+
  "0 0 5" +:+ endl.

(** A folder with two depth maps listed, one of them calibrated. *)
Definition sample_files : gmap string string :=
  <["data\vtiList.txt" := "a/depth0.vti" +:+ endl +:+ "depth1.vti" +:+ endl]>
  (<["data\kList.txt" := "k/cam0.krtd" +:+ endl +:+ "cam1.krtd"]>
  (<["data\cam0.krtd" := sample_krtd]> ∅)).

(** A folder whose list of depth maps is empty. *)
Definition empty_files : gmap string string :=
  <["data\vtiList.txt" := EmptyString]> (<["data\kList.txt" := EmptyString]> ∅).

Definition sample_run (X Y Z : list double) (output : string)
    (thick rho : double) : CommandLine :=
  {| result := 1; help := false; GetHelp := "usage";
     g_gridDims := [2; 2; 2]%Z;
     g_gridSpacing := [1; 1; 1]%float;
     g_gridOrigin := [0; 0; 0]%float;
     g_gridVecX := X; g_gridVecY := Y; g_gridVecZ := Z;
     g_outputGridFilename := output;
     g_pathFolder := "data";
     g_depthMapContainer := "vtiList.txt";
     g_KRTContainer := "kList.txt";
     rayPotentialThick := thick; rayPotentialRho := rho;
     noCuda := false; verbose := false |}.

Definition e1 : list double := [1; 0; 0]%float.
Definition e2 : list double := [0; 1; 0]%float.
Definition e3 : list double := [0; 0; 1]%float.

(** The command line of the comment above [main]. *)
Definition plain_run : CommandLine := sample_run e1 e2 e3 "output.vts" 2 3.
(** The same without [--outputGridFilename]. *)
Definition unnamed_run : CommandLine := sample_run e1 e2 e3 EmptyString 2 3.
(** X = (1,0,0) and Y = (1,1,0). *)
Definition skewed_run : CommandLine :=
  sample_run e1 [1; 1; 0]%float e3 "output.vts" 2 3.
(** [--rayThick 0]. *)
Definition thin_run : CommandLine := sample_run e1 e2 e3 "output.vts" 0 3.
(** [--gridVecZ 0 0] *)
Definition short_run : CommandLine :=
  sample_run e1 e2 [0; 0]%float "output.vts" 2 3.

(** The view that [plain_run] loads from [sample_files]. *)
Definition sample_view : ReconstructionData :=
  {| DepthMap := Some (ReaderOutput "data\depth0.vti");
     MatrixK := Some Matrix3x3.New;
     MatrixTR := Some (Num <$> [1; 0; 0; 0;
                                0; 1; 0; 0;
                                0; 0; 1; 5;
                                0; 0; 0; 1]%float) |}.

(** The filter as [plain_run] configures it over [sample_files]. *)
Definition sample_filter : Filter :=
  {| UseCuda := true; RayPotentialRho := 3; RayPotentialThickness := 2;
     InputData := Grid (2, 2, 2)%Z (1, 1, 1)%float (0, 0, 0)%float;
     DataList := [sample_view];
     GridMatrix := Matrix4x4.Identity |}.

(** A folder with one calibration file of a single line. *)
Definition one_line_files : gmap string string := <["x.krtd" := "1 2"]> ∅.

(** A folder whose matrix list is empty while a depth map is listed. *)
Definition no_matrix_files : gmap string string :=
  <["data\vtiList.txt" := "depth0.vti"]>
  (<["data\kList.txt" := EmptyString]> ∅).

(** The world after [plain_run] has loaded [sample_files]. *)
Definition loaded_world : World :=
  {| g_dataList := [sample_view]; g_gridMatrix := None;
     trace :=
       [ReaderUpdate "data\depth0.vti"; ReaderUpdate "data\depth1.vti";
        cerr ("Unable to open krtd file : data\cam1.krtd" +:+ endl)] |}.

(** The world at the end of [plain_run] over [sample_files]. *)
Definition plain_run_end : World :=
  {| g_dataList := []; g_gridMatrix := None;
     trace :=
       trace loaded_world ++
       [FilterUpdate sample_filter;
        TransformFilterUpdate Matrix4x4.Identity (FilterOutput sample_filter);
        GridWriterWrite "output.vts"
          (TransformOutput Matrix4x4.Identity (FilterOutput sample_filter))] |}.

(** The world at the end of [skewed_run]. *)
Definition skewed_run_end : World :=
  {| g_dataList := []; g_gridMatrix := None;
     trace := [cerr ("Given vectors are not orthogonals" +:+ endl)] |}.

(** [plain_run] without [--gridDims]. *)
Definition dimless_run : CommandLine :=
  {| result := 1; help := false; GetHelp := "usage";
     g_gridDims := [];
     g_gridSpacing := [1; 1; 1]%float;
     g_gridOrigin := [0; 0; 0]%float;
     g_gridVecX := e1; g_gridVecY := e2; g_gridVecZ := e3;
     g_outputGridFilename := "output.vts";
     g_pathFolder := "data";
     g_depthMapContainer := "vtiList.txt";
     g_KRTContainer := "kList.txt";
     rayPotentialThick := 2; rayPotentialRho := 3;
     noCuda := false; verbose := false |}.

(** * Reasoning about runs *)

(** ** Weakest preconditions *)

Section WpRules.
Context {A B : Type}.
Implicit Types (Q : A → World → Prop) (E : EngineError → World → Prop).

Lemma wp_ret (a : A) Q E w : Q a w → wp (mret a) Q E w.
Proof. done. Qed.

Lemma wp_bind (m : M A) (f : A → M B) (R : B → World → Prop) E w :
  wp m (λ a w', wp (f a) R E w') E w → wp (m ≫= f) R E w.
Proof. unfold wp, mbind, M_bind. by destruct (m w). Qed.

Lemma wp_mono (m : M A) Q Q' E E' w :
  wp m Q E w →
  (∀ a w', Q a w' → Q' a w') → (∀ e w', E e w' → E' e w') →
  wp m Q' E' w.
Proof. unfold wp. destruct (m w); auto. Qed.

Lemma wp_Ok (m : M A) Q E w a w' : wp m Q E w → m w = Ok a w' → Q a w'.
Proof. unfold wp. intros H Hm. by rewrite Hm in H. Qed.

Lemma wp_fuel (m : M A) Q E w : wp m Q E w → m w ≠ OutOfFuel.
Proof. unfold wp. intros H Hm. by rewrite Hm in H. Qed.

Lemma wp_defined (o : option A) Q E w :
  (∀ a, o = Some a → Q a w) → wp (defined o) Q E w.
Proof. unfold wp, defined. destruct o; auto. Qed.

Lemma wp_fuelled (o : option A) Q E w :
  is_Some o → (∀ a, o = Some a → Q a w) → wp (fuelled o) Q E w.
Proof. unfold wp, fuelled. intros [a ->]; auto. Qed.

Lemma wp_raise e Q E w : E e w → wp (raise e) Q E w.
Proof. done. Qed.
End WpRules.

Lemma wp_emit e (Q : unit → World → Prop) E w :
  Q () (add_event e w) → wp (emit e) Q E w.
Proof. done. Qed.

Lemma wp_get_dataList (Q : list ReconstructionData → World → Prop) E w :
  Q (g_dataList w) w → wp get_dataList Q E w.
Proof. done. Qed.

Lemma ShowInformation_eq a s w : ShowInformation a s w = Ok () (shown a s w).
Proof. unfold ShowInformation, shown. by destruct (verbose a). Qed.

Lemma wp_shown a s (Q : unit → World → Prop) E w :
  Q () (shown a s w) → wp (ShowInformation a s) Q E w.
Proof. unfold wp. by rewrite ShowInformation_eq. Qed.

Lemma shown_dataList a s w : g_dataList (shown a s w) = g_dataList w.
Proof. unfold shown. by destruct (verbose a). Qed.

Lemma shown_gridMatrix a s w : g_gridMatrix (shown a s w) = g_gridMatrix w.
Proof. unfold shown. by destruct (verbose a). Qed.

(** ** Traces that stay clear of the reconstruction pipeline *)

Lemma no_fusion_initial : no_fusion initial_world.
Proof. constructor. Qed.

Lemma no_fusion_add e w : benign e → no_fusion w → no_fusion (add_event e w).
Proof.
  unfold no_fusion. simpl. intros He Hw.
  apply Forall_app. split; [done | by constructor].
Qed.

Lemma no_fusion_cout s w : no_fusion w → no_fusion (add_event (cout s) w).
Proof. by apply no_fusion_add. Qed.

Lemma no_fusion_cerr s w : no_fusion w → no_fusion (add_event (cerr s) w).
Proof. by apply no_fusion_add. Qed.

Lemma shown_no_fusion a s w : no_fusion w → no_fusion (shown a s w).
Proof. unfold shown. destruct (verbose a); [apply no_fusion_cout | done]. Qed.

(** Goals of the form [no_fusion w → no_fusion w'] where [w'] is [w] with
    benign events added. *)
Ltac quiet :=
  unfold no_fusion, add_event in *; simpl in *;
  rewrite ?Forall_app, ?Forall_cons, ?Forall_nil; unfold benign;
  intuition.

(** ** Termination of [SplitString] *)

Lemma take_line_rest delim s l r :
  take_line delim s = (l, Some r) → String.length r < String.length s.
Proof.
  revert l. induction s as [|c s IH]; intros l; simpl; [done |].
  destruct (Ascii.eqb c delim).
  - intros [= <- <-]. lia.
  - destruct (take_line delim s) as [l' k] eqn:Hs. intros [= <- ->].
    specialize (IH l' eq_refl). lia.
Qed.

Lemma SplitString_loop_total fuel ss item delim elems :
  (if good ss then String.length (buf ss) + 2 else 1) ≤ fuel →
  is_Some (SplitString_loop fuel ss item delim elems).
Proof.
  revert ss item elems.
  induction fuel as [|fuel IH]; intros ss item elems Hfuel.
  { destruct (good ss); lia. }
  simpl. unfold getline.
  destruct (good ss) eqn:Hgood; [| by eexists].
  destruct (take_line delim (buf ss)) as [l [rest|]] eqn:Hline; simpl.
  - apply IH. simpl. apply take_line_rest in Hline. lia.
  - destruct (is_empty l); [by eexists |].
    apply IH. simpl. lia.
Qed.

Lemma SplitString_total s delim elems : is_Some (SplitString s delim elems).
Proof. apply SplitString_loop_total. simpl. lia. Qed.

(** ** Vectors read through [operator[]] *)

Lemma array3_Some {A} (v : list A) x y z :
  array3 v = Some (x, y, z) ↔ v !! 0 = Some x ∧ v !! 1 = Some y ∧ v !! 2 = Some z.
Proof.
  unfold array3.
  destruct v as [|a [|b [|c v]]]; simpl; split;
    try (intros [= -> -> ->]); try (intros ([= ->] & [= ->] & [= ->]));
    try done; by intros (? & ? & ?).
Qed.

Lemma array3_is_Some {A} (v : list A) : is_Some (array3 v) ↔ 3 ≤ length v.
Proof.
  unfold array3.
  destruct v as [|a [|b [|c v]]]; simpl; split;
    try (intros [? [=]]); try lia; by eexists.
Qed.

(** ** Argument validation *)

Lemma AreVectorsOrthogonal_is_Some a :
  is_Some (AreVectorsOrthogonal a) ↔ three_components a.
Proof.
  unfold AreVectorsOrthogonal, three_components.
  rewrite <- !array3_is_Some.
  destruct (array3 (g_gridVecX a)), (array3 (g_gridVecY a)),
    (array3 (g_gridVecZ a)); simpl; split;
    try (intros (? & ? & ?)); try (by intros [? [=]]);
    try (by exfalso; eapply is_Some_None); eauto.
  all: by case_match; eexists.
Qed.

Lemma AreVectorsOrthogonal_true a :
  AreVectorsOrthogonal a = Some true ↔ pairwise_orthogonal a.
Proof.
  unfold AreVectorsOrthogonal, pairwise_orthogonal. split.
  - destruct (array3 (g_gridVecX a)) as [X|]; [| done].
    destruct (array3 (g_gridVecY a)) as [Y|]; [| done].
    destruct (array3 (g_gridVecZ a)) as [Z|]; [| done]. simpl.
    destruct (Dot X Y =? 0)%float eqn:HXY; [| done].
    destruct (Dot Y Z =? 0)%float eqn:HYZ; [| done].
    destruct (Dot Z X =? 0)%float eqn:HZX; [| done].
    intros _. by exists X, Y, Z.
  - intros (X & Y & Z & -> & -> & -> & HXY & HYZ & HZX). simpl.
    by rewrite HXY, HYZ, HZX.
Qed.

Lemma String_eqb_empty s : String.eqb s EmptyString = false ↔ s ≠ EmptyString.
Proof. rewrite <- String.eqb_neq. done. Qed.

Lemma arguments_parsed_checks a :
  arguments_parsed a ↔
  ((result a =? 0)%Z || help a = false) ∧
  (String.eqb (g_outputGridFilename a) EmptyString
   || String.eqb (g_depthMapContainer a) EmptyString
   || String.eqb (g_KRTContainer a) EmptyString = false).
Proof.
  unfold arguments_parsed.
  rewrite !orb_false_iff, !String_eqb_empty, Z.eqb_neq. tauto.
Qed.

(** What [ReadArguments] does, case by case. *)
Lemma ReadArguments_cases a w :
  (¬ arguments_parsed a ∧ ∃ w', ReadArguments a w = Ok false w' ∧
      g_dataList w' = g_dataList w ∧ g_gridMatrix w' = g_gridMatrix w ∧
      (no_fusion w → no_fusion w')) ∨
  (arguments_parsed a ∧ AreVectorsOrthogonal a = None ∧
      ReadArguments a w = Undefined) ∨
  (arguments_parsed a ∧ AreVectorsOrthogonal a = Some false ∧
      ∃ w', ReadArguments a w = Ok false w' ∧
      g_dataList w' = g_dataList w ∧ g_gridMatrix w' = g_gridMatrix w ∧
      (no_fusion w → no_fusion w')) ∨
  (arguments_parsed a ∧ AreVectorsOrthogonal a = Some true ∧
      ReadArguments a w = Ok true w).
Proof.
  rewrite arguments_parsed_checks. unfold ReadArguments.
  destruct ((result a =? 0)%Z || help a).
  { left. split; [by intros [[=] _] |]. eexists. split; [done |].
    simpl. repeat split; try done. quiet. }
  destruct (String.eqb (g_outputGridFilename a) EmptyString
            || String.eqb (g_depthMapContainer a) EmptyString
            || String.eqb (g_KRTContainer a) EmptyString).
  { left. split; [by intros [_ [=]] |]. eexists. split; [done |].
    simpl. repeat split; try done. quiet. }
  right. unfold mbind, M_bind, defined.
  destruct (AreVectorsOrthogonal a) as [[|]|]; simpl.
  - right. right. done.
  - right. left. repeat split; try done. eexists. split; [done |].
    simpl. repeat split; try done. quiet.
  - left. done.
Qed.

(** ** [ReadKrtdFile] *)

Section KrtdFacts.
Context (num_get : string → option double * string).
Context (fs : gmap string string).

Lemma read_three_length set iss m :
  (∀ j v m', length (set j v m') = length m') →
  length (read_three num_get set iss m).2 = length m.
Proof.
  intros Hset. unfold read_three. simpl.
  repeat (destruct (extract_double num_get _ Indeterminate) as [? ?]; simpl).
  by rewrite !Hset.
Qed.

Lemma read_rows_length set file line m :
  (∀ i j v m', length (set i j v m') = length m') →
  length (read_rows num_get set file line m).2 = length m.
Proof.
  intros Hset. unfold read_rows. simpl.
  repeat match goal with
  | |- context [getline ?f ?l ?d] => destruct (getline f l d) as [? ?]; simpl
  | |- context [read_three num_get ?s ?i ?m'] =>
      let H := fresh "H" in
      pose proof (read_three_length s i m' (Hset _)) as H;
      destruct (read_three num_get s i m') as [? ?]; simpl in H |- *
  end.
  congruence.
Qed.

Lemma SetElement4_length i j v (m : vtkMatrix4x4) :
  length (Matrix4x4.SetElement i j v m) = length m.
Proof. apply length_insert. Qed.

(** The last two statements of [ReadKrtdFile] on a 4x4 matrix. *)
Lemma finalize_bottom_row (m : vtkMatrix4x4) :
  length m = 16 →
  Matrix4x4.Row
    (Matrix4x4.SetElement 3 3 (Num 1)
       (foldl (λ m j, Matrix4x4.SetElement 3 j (Num 0) m) m [0; 1; 2; 3])) 3
  = Num <$> [0; 0; 0; 1]%float.
Proof.
  intros Hm.
  do 17 (destruct m as [|? m]; try discriminate Hm).
  reflexivity.
Qed.

(** What [ReadKrtdFile] does, by whether the file opens. *)
Lemma ReadKrtdFile_cases filename K TR w :
  (fs !! filename = None ∧
   ReadKrtdFile num_get fs filename K TR w
   = Ok (false, K, TR)
        (add_event (cerr ("Unable to open krtd file : " +:+ filename +:+ endl)) w))
  ∨ (is_Some (fs !! filename) ∧ ∃ K' TR',
       (length TR = 16 → Matrix4x4.Row TR' 3 = Num <$> [0; 0; 0; 1]%float) ∧
       ∀ w', ReadKrtdFile num_get fs filename K TR w' = Ok (true, K', TR') w').
Proof.
  unfold ReadKrtdFile.
  destruct (fs !! filename) as [content|]; [right | by left].
  split; [by eexists |].
  pose proof (read_rows_length Matrix4x4.SetElement) as Hrows.
  pose proof (read_three_length (λ i, Matrix4x4.SetElement i 3)) as Hthree.
  destruct (read_rows num_get Matrix3x3.SetElement _ _ K) as [[file1 line1] K1].
  destruct (getline file1 line1 _) as [file2 line2].
  specialize (Hrows file2 line2 TR SetElement4_length).
  destruct (read_rows num_get Matrix4x4.SetElement file2 line2 TR)
    as [[file3 line3] TR3].
  destruct (getline file3 line3 _) as [file4 line4].
  destruct (getline file4 line4 _) as [file5 line5].
  specialize (Hthree (Stream.open line5) TR3 (λ j, SetElement4_length j 3)).
  destruct (read_three num_get _ (Stream.open line5) TR3) as [iss TR4].
  simpl in Hrows, Hthree.
  eexists _, _. split; [| done].
  intros HTR. apply finalize_bottom_row. congruence.
Qed.

End KrtdFacts.

(** ** Loading the views *)

Lemma getline_progress s str delim s' l :
  eofbit s = false → sane s → getline s str delim = (s', l) →
  sane s' ∧ rounds_left s' < rounds_left s.
Proof.
  intros Heof Hsane. unfold getline, good, rounds_left, sane.
  rewrite Heof, (Hsane Heof). simpl.
  destruct (take_line delim (buf s)) as [l' [rest|]] eqn:Hline;
    intros [= <- <-]; simpl.
  - apply take_line_rest in Hline. split; [done | lia].
  - split; [done | lia].
Qed.

Section Loading.
Context (num_get : string → option double * string).
Context (fs : gmap string string).

#[local] Abbreviation Calibrated := (calibrated num_get fs).
#[local] Abbreviation Loaded_from := (loaded_from num_get fs).


Lemma ReadContainers_wp a fuel c w :
  sane (depthMapContainer c) →
  rounds_left (depthMapContainer c) < fuel →
  Forall Calibrated (g_dataList w) →
  wp (ReadContainers num_get fs fuel a c)
     (λ _ w', Loaded_from w w') (λ _ _, False) w.
Proof.
  revert c w. induction fuel as [|fuel IH]; intros c w Hsane Hfuel Hviews;
    [lia |].
  simpl. destruct (eof (depthMapContainer c)) eqn:Heof.
  { apply wp_ret. by repeat split. }
  destruct (getline (depthMapContainer c) (depthMapPath c) "010")
    as [dmc path] eqn:Hline.
  destruct (getline_progress _ _ _ _ _ Heof Hsane Hline) as [Hsane' Hless].
  assert (rounds_left dmc < fuel) as Hfuel' by lia.
  apply wp_bind, wp_fuelled; [apply SplitString_total |]. intros elems _.
  destruct (length elems =? 0)%nat; [by apply IH |].
  apply wp_bind, wp_defined. intros name _.
  apply wp_bind, wp_emit.
  destruct (getline (matrixContainer c) (matrixPath c) "010") as [mc mpath].
  apply wp_bind, wp_fuelled; [apply SplitString_total |]. intros elems' _.
  apply wp_bind, wp_defined. intros name' _.
  apply wp_bind.
  destruct (ReadKrtdFile_cases num_get fs
              (g_pathFolder a +:+ backslash +:+ name')
              Matrix3x3.New Matrix4x4.New
              (add_event
                 (ReaderUpdate (g_pathFolder a +:+ backslash +:+ name)) w))
    as [[Hnone Hread] | [Hsome (K & TR & _ & Hread)]].
  - unfold wp at 1. rewrite Hread. simpl.
    eapply wp_mono; [apply IH; try done | | done].
    intros _ w' (Hq & Hm & Hv). repeat split; try done.
    intros Hw. apply Hq. quiet.
  - unfold wp at 1. rewrite Hread. simpl.
    apply wp_bind, wp_get_dataList. apply wp_bind. unfold wp at 1. simpl.
    eapply wp_mono; [apply IH; try done | | done].
    + simpl. apply Forall_app. split; [done |].
      constructor; [| done]. by eexists _, _, _, _.
    + intros _ w' (Hq & Hm & Hv). repeat split; try done.
      intros Hw. apply Hq. quiet.
Qed.

Lemma CreateReconstructionData_wp a w :
  wp (CreateReconstructionData num_get fs a)
     (λ b w', (no_fusion w → no_fusion w') ∧
              g_gridMatrix w' = g_gridMatrix w ∧
              (b = true → Forall Calibrated (g_dataList w')) ∧
              (g_dataList w' = [] → b = false))
     (λ _ _, False) w.
Proof.
  unfold CreateReconstructionData.
  apply wp_bind, wp_shown.
  destruct (fs !! (g_pathFolder a +:+ backslash +:+ g_depthMapContainer a))
    as [dmap|];
    [destruct (fs !! (g_pathFolder a +:+ backslash +:+ g_KRTContainer a))
       as [krt|] |].
  - apply wp_bind. unfold wp at 1. simpl.
    apply wp_bind.
    eapply wp_mono; [apply ReadContainers_wp | | done].
    + done.
    + unfold rounds_left. simpl. lia.
    + constructor.
    + intros _ w' (Hq & Hm & Hv). simpl in Hm. rewrite shown_gridMatrix in Hm.
      assert (no_fusion w → no_fusion w') as Hq'.
      { intros Hw. apply Hq. by apply shown_no_fusion. }
      apply wp_bind, wp_get_dataList.
      destruct (g_dataList w') as [|d l] eqn:Hl; simpl.
      * by apply wp_ret.
      * apply wp_bind, wp_shown, wp_ret.
        rewrite shown_dataList, shown_gridMatrix, Hl.
        repeat split; try done.
        intros Hw. by apply shown_no_fusion, Hq'.
  - apply wp_bind, wp_emit, wp_ret. repeat split; try done.
    + intros Hw. by apply no_fusion_cerr, shown_no_fusion.
    + simpl. apply shown_gridMatrix.
  - apply wp_bind, wp_emit, wp_ret. repeat split; try done.
    + intros Hw. by apply no_fusion_cerr, shown_no_fusion.
    + simpl. apply shown_gridMatrix.
Qed.

End Loading.

(** ** The grid matrix *)

Lemma wp_get_gridMatrix (Q : option vtkMatrix4x4 → World → Prop) E w :
  Q (g_gridMatrix w) w → wp get_gridMatrix Q E w.
Proof. done. Qed.

Section GridMatrix.
Context (to_string : double → string).

Lemma CreateGridMatrixFromInput_Ok a w X Y Z :
  array3 (g_gridVecX a) = Some X → array3 (g_gridVecY a) = Some Y →
  array3 (g_gridVecZ a) = Some Z →
  ∃ info, CreateGridMatrixFromInput to_string a w
          = Ok () (shown a info
                     {| g_dataList := g_dataList w;
                        g_gridMatrix := Some (grid_matrix X Y Z);
                        trace := trace w |}).
Proof.
  destruct X as [[x0 x1] x2], Y as [[y0 y1] y2], Z as [[z0 z1] z2].
  rewrite !array3_Some.
  intros (HX0 & HX1 & HX2) (HY0 & HY1 & HY2) (HZ0 & HZ1 & HZ2).
  unfold CreateGridMatrixFromInput, mbind, M_bind, defined.
  rewrite HX0, HX1, HX2, HY0, HY1, HY2, HZ0, HZ1, HZ2. simpl.
  eexists. apply ShowInformation_eq.
Qed.

Lemma CreateGridMatrixFromInput_Undefined a w :
  ¬ three_components a → CreateGridMatrixFromInput to_string a w = Undefined.
Proof.
  unfold three_components, CreateGridMatrixFromInput, mbind, M_bind, defined.
  intros Hshort.
  destruct (g_gridVecX a) as [|x0 [|x1 [|x2 xs]]]; try done;
  destruct (g_gridVecY a) as [|y0 [|y1 [|y2 ys]]]; try done;
  destruct (g_gridVecZ a) as [|z0 [|z1 [|z2 zs]]]; try done.
  simpl in Hshort. lia.
Qed.

End GridMatrix.

(** ** The whole run *)

Lemma benign_trace_no_FilterUpdate w f :
  no_fusion w → FilterUpdate f ∉ trace w.
Proof.
  unfold no_fusion. rewrite Forall_forall. intros Hw Hf. exact (Hw _ Hf).
Qed.

Section Run.
Context (num_get : string → option double * string).
Context (to_string : double → string).
Context (fs : gmap string string).
Context (ExecutionTime : double).

#[local] Abbreviation Main := (main num_get to_string fs ExecutionTime).
#[local] Abbreviation LoadData := (CreateReconstructionData num_get fs).
#[local] Abbreviation Calibrated := (calibrated num_get fs).

Lemma main_ReadArguments_false a w w' :
  ReadArguments a w = Ok false w' → Main a w = Ok EXIT_FAILURE w'.
Proof. intros H. unfold main, mbind, M_bind. by rewrite H. Qed.

Lemma main_CreateReconstructionData_false a w w1 w2 :
  ReadArguments a w = Ok true w1 →
  (ShowInformation a "---START---";; LoadData a) w1
  = Ok false w2 →
  Main a w
  = Ok EXIT_FAILURE
      (add_event (cerr ("Error during ReconstructionData construction" +:+ endl)) w2).
Proof.
  intros H1 H2. unfold main, mbind, M_bind in *. rewrite H1. simpl.
  destruct (ShowInformation a "---START---" w1) as [[] w1'| | |]; try done.
  by rewrite H2.
Qed.

Lemma main_wp a :
  wp (Main a)
     (λ c w, (c = EXIT_FAILURE ∧ no_fusion w) ∨
             (c = EXIT_SUCCESS ∧ parameters_accepted a ∧
              ∀ f, FilterUpdate f ∈ trace w → fed num_get fs a f))
     (λ e w, e = InvalidParameter ∧ no_fusion w ∧ ¬ parameters_accepted a)
     initial_world.
Proof.
  unfold main. apply wp_bind.
  destruct (ReadArguments_cases a initial_world)
    as [(_ & w' & H & _ & _ & Hq) | [(_ & _ & H) |
        [(_ & _ & w' & H & _ & _ & Hq) | (_ & _ & H)]]];
    unfold wp at 1; rewrite H; simpl; try done.
  1, 2: apply wp_ret; left; split; [done | apply Hq, no_fusion_initial].
  apply wp_bind, wp_shown, wp_bind.
  eapply wp_mono; [apply CreateReconstructionData_wp | | done].
  intros b w2 (Hq & _ & Hviews & Hempty).
  assert (no_fusion w2) as Hw2
    by apply Hq, shown_no_fusion, no_fusion_initial.
  destruct b; simpl.
  2: { apply wp_bind, wp_emit, wp_ret. left. split; [done |].
       by apply no_fusion_cerr. }
  specialize (Hviews eq_refl).
  assert (g_dataList w2 ≠ []) as Hne by (by intros [=]%Hempty).
  apply wp_bind.
  destruct (decide (three_components a)) as [(HX & HY & HZ) | Hshort].
  2: { unfold wp at 1. by rewrite CreateGridMatrixFromInput_Undefined. }
  apply array3_is_Some in HX as [X HX], HY as [Y HY], HZ as [Z HZ].
  destruct (CreateGridMatrixFromInput_Ok to_string a w2 X Y Z HX HY HZ)
    as [info Hgrid].
  unfold wp at 1. rewrite Hgrid.
  apply wp_bind, wp_defined. intros dims _.
  apply wp_bind, wp_defined. intros spacing _.
  apply wp_bind, wp_defined. intros origin _.
  apply wp_bind, wp_shown.
  unfold SetRayPotentialRho, SetRayPotentialThickness, parameters_accepted.
  apply wp_bind.
  destruct (rayPotentialRho a <=? 0)%float.
  { apply wp_raise. repeat split; [| by intros [[=] _]].
    by do 2 apply shown_no_fusion. }
  apply wp_ret, wp_bind.
  destruct (rayPotentialThick a <=? 0)%float.
  { apply wp_raise. repeat split; [| by intros [_ [=]]].
    by do 2 apply shown_no_fusion. }
  apply wp_ret.
  apply wp_bind, wp_get_dataList, wp_bind, wp_get_gridMatrix.
  rewrite !shown_dataList, !shown_gridMatrix. simpl.
  apply wp_bind, wp_defined. intros m [= <-].
  apply wp_bind, wp_emit, wp_bind, wp_shown, wp_bind, wp_shown.
  apply wp_bind, wp_emit, wp_bind, wp_shown, wp_bind, wp_emit.
  apply wp_bind. unfold wp at 1. simpl.
  apply wp_bind. unfold wp at 1. simpl.
  apply wp_bind, wp_shown, wp_ret.
  right. split; [done |]. split; [done |]. intros f.
  unfold shown, add_event. destruct (verbose a); simpl;
    rewrite !elem_of_app, !list_elem_of_singleton;
    intros Hf; destruct_or?;
    try (by apply benign_trace_no_FilterUpdate in Hf);
    simplify_eq; by repeat split.
Qed.

Lemma main_terminates a : Main a initial_world ≠ OutOfFuel.
Proof. eapply wp_fuel, main_wp. Qed.

End Run.

(** ** Runs that differ in what they print *)

Lemma hush_add_event e w w' :
  hush w = hush w' → hush (add_event e w) = hush (add_event e w').
Proof.
  unfold hush, add_event, silent. simpl. intros [= Hd Hm Ht].
  by rewrite !List.filter_app, Hd, Hm, Ht.
Qed.

Lemma hush_add_cout s w : hush (add_event (cout s) w) = hush w.
Proof.
  unfold hush, add_event, silent. simpl.
  by rewrite List.filter_app, app_nil_r.
Qed.

Lemma hush_shown a s w : hush (shown a s w) = hush w.
Proof. unfold shown. destruct (verbose a); [apply hush_add_cout | done]. Qed.

Lemma Ok_inj {A} (a a' : A) w w' : Ok a w = Ok a' w' → a = a' ∧ w = w'.
Proof. intros H. by inversion H. Qed.

Lemma Raised_inj {A} e e' w w' :
  Raised (A:=A) e w = Raised e' w' → e = e' ∧ w = w'.
Proof. intros H. by inversion H. Qed.

Section Alike.
Context {A B : Type}.

Lemma alike_ret (a : A) : alike (mret a) (mret a).
Proof. intros w w' H. simpl. by rewrite H. Qed.

Lemma alike_bind (m m' : M A) (f f' : A → M B) :
  alike m m' → (∀ a, alike (f a) (f' a)) → alike (m ≫= f) (m' ≫= f').
Proof.
  intros Hm Hf w w' Hw. specialize (Hm w w' Hw).
  unfold mbind, M_bind.
  destruct (m w) as [a w1| |e w1|], (m' w') as [a' w1'| |e' w1'|];
    unfold hush_outcome in Hm; try done.
  - apply Ok_inj in Hm as [-> Hw1]. by apply Hf.
  - apply Raised_inj in Hm as [-> Hw1]. simpl. by rewrite Hw1.
Qed.

Lemma alike_defined (o : option A) : alike (defined o) (defined o).
Proof. intros w w' H. unfold defined. destruct o; simpl; by rewrite ?H. Qed.

Lemma alike_fuelled (o : option A) : alike (fuelled o) (fuelled o).
Proof. intros w w' H. unfold fuelled. destruct o; simpl; by rewrite ?H. Qed.

Lemma alike_raise e : alike (raise (A:=A) e) (raise e).
Proof. intros w w' H. unfold raise. simpl. by rewrite H. Qed.
End Alike.

Lemma alike_emit e : alike (emit e) (emit e).
Proof. intros w w' H. simpl. f_equal. by apply (hush_add_event e). Qed.

Lemma alike_ShowInformation a a' s s' :
  alike (ShowInformation a s) (ShowInformation a' s').
Proof.
  intros w w' H. rewrite !ShowInformation_eq. simpl.
  by rewrite !hush_shown, H.
Qed.

Lemma alike_get_dataList : alike get_dataList get_dataList.
Proof.
  intros w w' H. unfold get_dataList, hush_outcome. rewrite H.
  injection H as Hd _ _. by rewrite Hd.
Qed.

Lemma alike_set_dataList l : alike (set_dataList l) (set_dataList l).
Proof.
  intros w w' H. unfold set_dataList, hush_outcome, hush, silent in *.
  simpl. injection H as _ Hm Ht. congruence.
Qed.

Lemma alike_get_gridMatrix : alike get_gridMatrix get_gridMatrix.
Proof.
  intros w w' H. unfold get_gridMatrix, hush_outcome. rewrite H.
  injection H as _ Hm _. by rewrite Hm.
Qed.

Lemma alike_set_gridMatrix m : alike (set_gridMatrix m) (set_gridMatrix m).
Proof.
  intros w w' H. unfold set_gridMatrix, hush_outcome, hush, silent in *.
  simpl. injection H as Hd _ Ht. congruence.
Qed.

(** One step through two programs of the same shape. *)
Ltac alike_step :=
  first
    [ apply alike_ret | apply alike_emit | apply alike_ShowInformation
    | apply alike_defined | apply alike_fuelled | apply alike_raise
    | apply alike_get_dataList | apply alike_set_dataList
    | apply alike_get_gridMatrix | apply alike_set_gridMatrix
    | apply alike_bind; [| intros ?] ].

(** Through straight-line code with branches on the same conditions. *)
Ltac alike_auto := repeat first [alike_step | case_match].

Section AlikeRuns.
Context (num_get : string → option double * string).
Context (to_string : double → string).
Context (fs : gmap string string).
Context (ExecutionTime : double).

Lemma ReadArguments_with_verbose a v :
  ReadArguments (with_verbose v a) = ReadArguments a.
Proof. reflexivity. Qed.

Lemma alike_ReadArguments a v :
  alike (ReadArguments a) (ReadArguments (with_verbose v a)).
Proof.
  rewrite ReadArguments_with_verbose. unfold ReadArguments. alike_auto.
Qed.

Lemma alike_ReadKrtdFile filename K TR :
  alike (ReadKrtdFile num_get fs filename K TR)
        (ReadKrtdFile num_get fs filename K TR).
Proof.
  unfold ReadKrtdFile. alike_auto.
Qed.

Lemma alike_ReadContainers fuel a v c :
  alike (ReadContainers num_get fs fuel a c)
        (ReadContainers num_get fs fuel (with_verbose v a) c).
Proof.
  revert c. induction fuel as [|fuel IH]; intros c; [done |].
  simpl. destruct (eof (depthMapContainer c)); [alike_step |].
  destruct (getline (depthMapContainer c) _ _) as [dmc path].
  apply alike_bind; [alike_step | intros elems].
  destruct (length elems =? 0)%nat; [apply IH |].
  apply alike_bind; [alike_step | intros name].
  apply alike_bind; [alike_step | intros _].
  destruct (getline (matrixContainer c) _ _) as [mc mpath].
  apply alike_bind; [alike_step | intros elems'].
  apply alike_bind; [alike_step | intros name'].
  apply alike_bind; [apply alike_ReadKrtdFile | intros [[isReadOk K] TR]].
  destruct isReadOk; simpl; [| apply IH].
  apply alike_bind; [alike_step | intros dataList].
  apply alike_bind; [alike_step | intros _]. apply IH.
Qed.

Lemma alike_CreateReconstructionData a v :
  alike (CreateReconstructionData num_get fs a)
        (CreateReconstructionData num_get fs (with_verbose v a)).
Proof.
  unfold CreateReconstructionData. simpl.
  apply alike_bind; [alike_step | intros _].
  destruct (fs !! _) as [dmap|]; [destruct (fs !! _) as [krt|] |];
    [| alike_auto ..].
  apply alike_bind; [alike_step | intros _].
  apply alike_bind; [apply alike_ReadContainers | intros _].
  alike_auto.
Qed.

Lemma alike_CreateGridMatrixFromInput a v :
  alike (CreateGridMatrixFromInput to_string a)
        (CreateGridMatrixFromInput to_string (with_verbose v a)).
Proof. unfold CreateGridMatrixFromInput. simpl. alike_auto. Qed.

Lemma alike_main a v :
  alike (main num_get to_string fs ExecutionTime a)
        (main num_get to_string fs ExecutionTime (with_verbose v a)).
Proof.
  unfold main.
  apply alike_bind; [apply alike_ReadArguments | intros ok].
  destruct ok; simpl; [| alike_step].
  apply alike_bind; [alike_step | intros _].
  apply alike_bind; [apply alike_CreateReconstructionData | intros ok].
  destruct ok; simpl; [| alike_auto].
  apply alike_bind; [apply alike_CreateGridMatrixFromInput | intros _].
  unfold SetRayPotentialRho, SetRayPotentialThickness.
  alike_auto.
Qed.

End AlikeRuns.

(** * The model at the sample inputs *)


Example thin_run_is_refused :
  main digits_num_get blank_to_string sample_files 1 thin_run initial_world
  = Raised InvalidParameter
      {| g_dataList := [sample_view];
         g_gridMatrix := Some Matrix4x4.Identity;
         trace :=
           [ReaderUpdate "data\depth0.vti"; ReaderUpdate "data\depth1.vti";
            cerr ("Unable to open krtd file : data\cam1.krtd" +:+ endl)] |}.
Proof. vm_compute. reflexivity. Qed.

Example short_run_is_undefined :
  ReadArguments short_run initial_world = Undefined.
Proof. reflexivity. Qed.

Example garbage_krtd_is_accepted :
  ReadKrtdFile digits_num_get (<["x" := "1 2"]> ∅) "x"
    Matrix3x3.New Matrix4x4.New initial_world
  = Ok (true,
        [Num 1; Num 2; Indeterminate;
         Num 1; Num 2; Indeterminate;
         Num 1; Num 2; Indeterminate],
        [Num 1; Num 2; Indeterminate; Num 1;
         Num 1; Num 2; Indeterminate; Num 2;
         Num 1; Num 2; Indeterminate; Indeterminate;
         Num 0; Num 0; Num 0; Num 1])
       initial_world.
Proof. vm_compute. reflexivity. Qed.

(** * The properties of the driver *)

Section Claims.
Context (num_get : string → option double * string).
Context (to_string : double → string).
Context (fs : gmap string string).
Context (ExecutionTime : double).

#[local] Abbreviation Main := (main num_get to_string fs ExecutionTime).
#[local] Abbreviation LoadData := (CreateReconstructionData num_get fs).
#[local] Abbreviation Calibrated := (calibrated num_get fs).

Lemma proceeds_iff a :
  proceeds a ↔ arguments_parsed a ∧ pairwise_orthogonal a.
Proof.
  unfold proceeds. rewrite <- AreVectorsOrthogonal_true.
  destruct (ReadArguments_cases a initial_world)
    as [(Hn & w' & H & _) | [(Hp & Hv & H) |
        [(Hp & Hv & w' & H & _) | (Hp & Hv & H)]]];
    rewrite H; split.
  all: try (by intros [w [=]]); try (intros [_ Hv']; congruence).
  by eexists.
Qed.

Lemma main_fails_early a :
  (∃ w, ReadArguments a initial_world = Ok false w) →
  ∃ w, Main a initial_world = Ok EXIT_FAILURE w ∧ no_fusion w.
Proof.
  intros [w H]. exists w. split; [by apply main_ReadArguments_false |].
  destruct (ReadArguments_cases a initial_world)
    as [(_ & w' & H' & _ & _ & Hq) | [(_ & _ & H') |
        [(_ & _ & w' & H' & _ & _ & Hq) | (_ & _ & H')]]];
    rewrite H' in H; try done.
  all: injection H as <-; apply Hq, no_fusion_initial.
Qed.

(** C1 (amended).  Let the three direction vectors begin with the
    values X, Y and Z.  Then the run gets past [ReadArguments] exactly
    when the command line parsed without [--help], the three file names
    are not empty and the three pairwise dot products X.Y, Y.Z and Z.X
    are exactly equal to zero, by the [== 0] of the source on doubles.
    Nothing is said of a vector that holds fewer than three values.
    With X = (1,0,0) and Y = (1,1,0), whatever Z and the other
    arguments, [main] returns [EXIT_FAILURE] and neither the filter nor
    the transform nor the writer has run. *)
Theorem ReadArguments_proceeds_iff a X Y Z :
  array3 (g_gridVecX a) = Some X →
  array3 (g_gridVecY a) = Some Y →
  array3 (g_gridVecZ a) = Some Z →
  (proceeds a ↔
     arguments_parsed a ∧
     (Dot X Y =? 0)%float = true ∧ (Dot Y Z =? 0)%float = true ∧
     (Dot Z X =? 0)%float = true) ∧
  (X = (1, 0, 0)%float → Y = (1, 1, 0)%float →
     ¬ proceeds a ∧
     ∃ w, Main a initial_world = Ok EXIT_FAILURE w ∧ no_fusion w).
Proof.
  intros HX HY HZ. split.
  { rewrite proceeds_iff. unfold pairwise_orthogonal. split.
    - intros (Hargs & X' & Y' & Z' & HX' & HY' & HZ' & Hdots).
      by simplify_eq.
    - intros (Hargs & Hdots). split; [done |]. by exists X, Y, Z. }
  intros -> ->.
  assert (AreVectorsOrthogonal a = Some false) as Hskew.
  { unfold AreVectorsOrthogonal. rewrite HX, HY, HZ.
    destruct Z as [[z0 z1] z2]. reflexivity. }
  split.
  - rewrite proceeds_iff, <- AreVectorsOrthogonal_true. intros [_ H].
    congruence.
  - apply main_fails_early.
    destruct (ReadArguments_cases a initial_world)
      as [(_ & w' & H & _) | [(_ & Hv & _) |
          [(_ & _ & w' & H & _) | (_ & Hv & _)]]];
      try congruence; by exists w'.
Qed.

(** C2.  With a thickness or a rho that is less than or equal to zero,
    a run whose behaviour is defined ends in [EXIT_FAILURE] or in the
    engine's [InvalidParameter], and in both cases the filter, the
    transform and the writer have not run. *)
Theorem nonpositive_parameters_rejected a :
  (rayPotentialThick a <=? 0)%float = true ∨
  (rayPotentialRho a <=? 0)%float = true →
  rejected (Main a initial_world).
Proof.
  intros Hbad. pose proof (main_wp num_get to_string fs ExecutionTime a) as H.
  unfold wp in H. unfold rejected.
  destruct (Main a initial_world) as [c w| |e w|]; try done.
  - destruct H as [H | (_ & [Hrho Hthick] & _)]; [done |].
    destruct Hbad; congruence.
  - by destruct H as (-> & Hw & _).
Qed.

(** C3.  When the list of loaded views is empty after
    [CreateReconstructionData], that function has returned [false],
    and [main] returns [EXIT_FAILURE] without the filter, the transform
    or the writer having run. *)
Theorem no_views_no_reconstruction a w1 b w2 :
  ReadArguments a initial_world = Ok true w1 →
  (ShowInformation a "---START---";; LoadData a) w1 = Ok b w2 →
  g_dataList w2 = [] →
  b = false ∧
  ∃ w, Main a initial_world = Ok EXIT_FAILURE w ∧ no_fusion w.
Proof.
  intros Hargs Hload Hempty.
  assert (w1 = initial_world) as ->.
  { destruct (ReadArguments_cases a initial_world)
      as [(_ & w' & H & _) | [(_ & _ & H) |
          [(_ & _ & w' & H & _) | (_ & _ & H)]]];
      rewrite H in Hargs; by simplify_eq. }
  unfold mbind, M_bind in Hload. rewrite ShowInformation_eq in Hload.
  pose proof (CreateReconstructionData_wp num_get fs a
                (shown a "---START---" initial_world)) as Hwp.
  apply (wp_Ok _ _ _ _ _ _ Hwp) in Hload as Hpost.
  destruct Hpost as (Hq & _ & _ & Hfalse).
  specialize (Hfalse Hempty) as ->. split; [done |].
  eexists. split.
  - eapply main_CreateReconstructionData_false; [done |].
    unfold mbind, M_bind. by rewrite ShowInformation_eq.
  - by apply no_fusion_cerr, Hq, shown_no_fusion, no_fusion_initial.
Qed.


(** C5.  If a validation step fails (the arguments, the orthogonality
    check or the construction of the reconstruction data), [main]
    returns [EXIT_FAILURE] and neither the filter nor the transform nor
    the grid writer has run. *)
Theorem failed_validation_exits a :
  validation_fails num_get fs a →
  ∃ w, Main a initial_world = Ok EXIT_FAILURE w ∧ no_fusion w.
Proof.
  intros [Hargs | [Hskew | (w1 & w2 & Hargs & Hload)]].
  - apply main_fails_early.
    destruct (ReadArguments_cases a initial_world)
      as [(_ & w' & H & _) | [(Hp & _) | [(Hp & _) | (Hp & _)]]];
      try done; by exists w'.
  - apply main_fails_early.
    destruct (ReadArguments_cases a initial_world)
      as [(_ & w' & H & _) | [(_ & Hv & _) |
          [(_ & _ & w' & H & _) | (_ & Hv & _)]]];
      try congruence; by exists w'.
  - assert (w1 = initial_world) as ->.
    { destruct (ReadArguments_cases a initial_world)
        as [(_ & w' & H & _) | [(_ & _ & H) |
            [(_ & _ & w' & H & _) | (_ & _ & H)]]];
        rewrite H in Hargs; by simplify_eq. }
    eexists. split; [by eapply main_CreateReconstructionData_false |].
    unfold mbind, M_bind in Hload. rewrite ShowInformation_eq in Hload.
    pose proof (CreateReconstructionData_wp num_get fs a
                  (shown a "---START---" initial_world)) as Hwp.
    apply (wp_Ok _ _ _ _ _ _ Hwp) in Hload as (Hq & _).
    by apply no_fusion_cerr, Hq, shown_no_fusion, no_fusion_initial.
Qed.

(** C6.  Every pose matrix TR that a successful call of [ReadKrtdFile]
    leaves in a 4x4 matrix has the bottom row [0, 0, 0, 1], whatever
    the file holds. *)
Theorem ReadKrtdFile_bottom_row filename K TR w K' TR' w' :
  length TR = 16 →
  ReadKrtdFile num_get fs filename K TR w = Ok (true, K', TR') w' →
  Matrix4x4.Row TR' 3 = Num <$> [0; 0; 0; 1]%float.
Proof.
  intros HTR Hread.
  destruct (ReadKrtdFile_cases num_get fs filename K TR w)
    as [[_ H] | (_ & K'' & TR'' & Hrow & H)].
  - rewrite H in Hread. discriminate Hread.
  - rewrite H in Hread. injection Hread as _ <- _. by apply Hrow.
Qed.

(** C7.  [CreateGridMatrixFromInput] leaves in [g_gridMatrix] a 4x4
    matrix whose entry (i, j), for i and j in 0..2, is component j of
    the i-th direction vector (X, Y, Z in this order), and whose fourth
    row and fourth column are those of the identity. *)
Theorem CreateGridMatrixFromInput_entries a w X Y Z :
  array3 (g_gridVecX a) = Some X → array3 (g_gridVecY a) = Some Y →
  array3 (g_gridVecZ a) = Some Z →
  ∃ w' m,
    CreateGridMatrixFromInput to_string a w = Ok () w' ∧
    g_gridMatrix w' = Some m ∧ length m = 16 ∧
    (∀ i j v, [X; Y; Z] !! i = Some v → j < 3 →
              Matrix4x4.GetElement m i j = Num <$> component v j) ∧
    Matrix4x4.Row m 3 = Matrix4x4.Row Matrix4x4.Identity 3 ∧
    (∀ i, Matrix4x4.GetElement m i 3
          = Matrix4x4.GetElement Matrix4x4.Identity i 3).
Proof.
  intros HX HY HZ.
  destruct (CreateGridMatrixFromInput_Ok to_string a w X Y Z HX HY HZ)
    as [info ->].
  eexists _, _. split; [done |]. rewrite shown_gridMatrix. simpl.
  split; [done |].
  destruct X as [[x0 x1] x2], Y as [[y0 y1] y2], Z as [[z0 z1] z2].
  split; [reflexivity |]. split; [| split; [reflexivity |]].
  - intros i j v Hi Hj.
    destruct i as [|[|[|i]]]; simpl in Hi;
      [| | | by rewrite lookup_nil in Hi];
      injection Hi as <-;
      destruct j as [|[|[|j]]]; try lia; reflexivity.
  - intros i. destruct i as [|[|[|[|i]]]]; try reflexivity.
    unfold Matrix4x4.GetElement.
    transitivity (@None cell); [| symmetry];
      apply lookup_ge_None_2; simpl; lia.
Qed.

(** C8.  [ReadKrtdFile] returns [false] exactly when the named file
    cannot be opened, and [true] exactly when it can, whatever the file
    holds. *)
Theorem ReadKrtdFile_false_iff_unopened filename K TR w :
  ((∃ K' TR' w', ReadKrtdFile num_get fs filename K TR w
                 = Ok (false, K', TR') w')
   ↔ fs !! filename = None) ∧
  ((∃ K' TR' w', ReadKrtdFile num_get fs filename K TR w
                 = Ok (true, K', TR') w')
   ↔ is_Some (fs !! filename)).
Proof.
  destruct (ReadKrtdFile_cases num_get fs filename K TR w)
    as [[Hnone H] | (Hsome & K'' & TR'' & _ & H)]; rewrite H.
  - rewrite Hnone. split; split; try done.
    + by eexists _, _, _.
    + by intros (? & ? & ? & [=]).
  - split; split; try done.
    + by intros (? & ? & ? & [=]).
    + intros Hnone. rewrite Hnone in Hsome. by destruct Hsome.
    + by eexists _, _, _.
Qed.

(** C9.  [AreVectorsOrthogonal] and [CreateGridMatrixFromInput] read
    components 0, 1 and 2 of the three direction vectors whatever their
    lengths: they stay inside the vectors exactly when each holds at
    least three values.  [ReadArguments] checks no length: once the
    arguments are parsed and the file names present it reaches these
    reads with whatever vectors it was given. *)
Theorem vector_components_read_unchecked a w :
  (AreVectorsOrthogonal a = None ↔ ¬ three_components a) ∧
  (CreateGridMatrixFromInput to_string a w = Undefined
   ↔ ¬ three_components a) ∧
  (ReadArguments a w = Undefined
   ↔ arguments_parsed a ∧ ¬ three_components a).
Proof.
  rewrite <- AreVectorsOrthogonal_is_Some, <- eq_None_not_Some.
  split; [done |]. split.
  - rewrite eq_None_not_Some, AreVectorsOrthogonal_is_Some. split.
    + intros Hund (HX & HY & HZ).
      apply array3_is_Some in HX as [X HX], HY as [Y HY], HZ as [Z HZ].
      destruct (CreateGridMatrixFromInput_Ok to_string a w X Y Z HX HY HZ)
        as [info H].
      rewrite H in Hund. discriminate Hund.
    + apply CreateGridMatrixFromInput_Undefined.
  - destruct (ReadArguments_cases a w)
      as [(Hn & w' & H & _) | [(Hp & Hv & H) |
          [(Hp & Hv & w' & H & _) | (Hp & Hv & H)]]];
      rewrite H; split; try done; try (by intros [? ?]);
      intros [_ Hv']; congruence.
Qed.

(** C10.  Two runs whose command lines differ in [--verbose] only end
    alike: same exit code (or same refusal), same data list and grid
    matrix, and the same events in the same order but for what went to
    the standard output; so the same depth maps were read, the filter
    got the same parameters, data list and grid matrix, and the same
    grid went to the same output file. *)
Theorem verbose_only_changes_console a v :
  hush_outcome (Main a initial_world)
  = hush_outcome (Main (with_verbose v a) initial_world).
Proof. by apply alike_main. Qed.

End Claims.

(** ** The properties at the sample inputs *)

(** C1 as first stated fails: the vectors of [unnamed_run] are pairwise
    orthogonal, yet the run stops in [ReadArguments], which misses the name
    of the output file. *)
Lemma orthogonal_vectors_do_not_suffice :
  ¬ (proceeds unnamed_run ↔ pairwise_orthogonal unnamed_run).
Proof.
  intros [_ H].
  destruct H as [w Hw]; [| discriminate Hw].
  exists (1, 0, 0)%float, (0, 1, 0)%float, (0, 0, 1)%float.
  by repeat split.
Qed.

Lemma ReadArguments_proceeds_iff_witness :
  proceeds plain_run ∧
  ¬ proceeds skewed_run ∧
  ∃ w, main digits_num_get blank_to_string sample_files 1 skewed_run
         initial_world = Ok EXIT_FAILURE w ∧ no_fusion w.
Proof.
  split.
  - apply (proj1 (ReadArguments_proceeds_iff digits_num_get blank_to_string
                    sample_files 1 plain_run
                    (1, 0, 0)%float (0, 1, 0)%float (0, 0, 1)%float
                    eq_refl eq_refl eq_refl)).
    vm_compute. repeat split; discriminate.
  - apply (proj2 (ReadArguments_proceeds_iff digits_num_get blank_to_string
                    sample_files 1 skewed_run
                    (1, 0, 0)%float (1, 1, 0)%float (0, 0, 1)%float
                    eq_refl eq_refl eq_refl));
      reflexivity.
Defined.

Lemma nonpositive_parameters_rejected_witness :
  rejected (main digits_num_get blank_to_string sample_files 1 thin_run
              initial_world).
Proof.
  apply nonpositive_parameters_rejected. left. reflexivity.
Defined.

Lemma no_views_no_reconstruction_witness :
  false = false ∧
  ∃ w, main digits_num_get blank_to_string empty_files 1 plain_run
         initial_world = Ok EXIT_FAILURE w ∧ no_fusion w.
Proof.
  apply (no_views_no_reconstruction digits_num_get blank_to_string
           empty_files 1 plain_run initial_world false initial_world);
    reflexivity.
Defined.


Lemma failed_validation_exits_witness :
  ∃ w, main digits_num_get blank_to_string sample_files 1 skewed_run
         initial_world = Ok EXIT_FAILURE w ∧ no_fusion w.
Proof.
  apply failed_validation_exits. right. left. reflexivity.
Defined.

Lemma ReadKrtdFile_bottom_row_witness :
  Matrix4x4.Row (Num <$> [1; 0; 0; 0;
                          0; 1; 0; 0;
                          0; 0; 1; 5;
                          0; 0; 0; 1]%float) 3
  = Num <$> [0; 0; 0; 1]%float.
Proof.
  apply (ReadKrtdFile_bottom_row digits_num_get sample_files "data\cam0.krtd"
           Matrix3x3.New Matrix4x4.New initial_world Matrix3x3.New _
           initial_world).
  - reflexivity.
  - vm_compute. reflexivity.
Defined.

Lemma CreateGridMatrixFromInput_entries_witness :
  ∃ w' m,
    CreateGridMatrixFromInput blank_to_string skewed_run initial_world
    = Ok () w' ∧
    g_gridMatrix w' = Some m ∧ length m = 16 ∧
    (∀ i j v, [(1, 0, 0); (1, 1, 0); (0, 0, 1)]%float !! i = Some v → j < 3 →
              Matrix4x4.GetElement m i j = Num <$> component v j) ∧
    Matrix4x4.Row m 3 = Matrix4x4.Row Matrix4x4.Identity 3 ∧
    (∀ i, Matrix4x4.GetElement m i 3
          = Matrix4x4.GetElement Matrix4x4.Identity i 3).
Proof.
  apply CreateGridMatrixFromInput_entries; reflexivity.
Defined.

(** * More on the functions of the driver *)

(** ** [SplitString] *)

Lemma append_cons c s t : String c s +:+ t = String c (s +:+ t).
Proof. reflexivity. Qed.

Lemma append_empty_l t : EmptyString +:+ t = t.
Proof. reflexivity. Qed.

Lemma append_empty_r s : s +:+ EmptyString = s.
Proof. induction s as [|c s IH]; [done |]. by rewrite append_cons, IH. Qed.

Lemma append_assoc s t u : (s +:+ t) +:+ u = s +:+ (t +:+ u).
Proof.
  induction s as [|c s IH]; [done |]. by rewrite !append_cons, IH.
Qed.

Lemma is_empty_true s : is_empty s = true ↔ s = EmptyString.
Proof. by destruct s. Qed.

Lemma is_empty_append s t : is_empty (s +:+ t) = is_empty s && is_empty t.
Proof. by destruct s. Qed.

Lemma contains_append c s t :
  contains c (s +:+ t) = contains c s || contains c t.
Proof.
  induction s as [|x s IH]; [done |].
  rewrite ?append_cons. simpl. by rewrite IH, orb_assoc.
Qed.

(** What [take_line] returns, read back on its argument. *)
Lemma take_line_Some delim s l r :
  take_line delim s = (l, Some r) →
  s = l +:+ String delim r ∧ contains delim l = false.
Proof.
  revert l. induction s as [|c s IH]; intros l; simpl; [done |].
  destruct (Ascii.eqb c delim) eqn:Hc.
  - intros [= <- <-]. apply Ascii.eqb_eq in Hc as ->. done.
  - destruct (take_line delim s) as [l' k]. intros [= <- ->].
    destruct (IH l' eq_refl) as [-> Hl'].
    split; [done |]. simpl. by rewrite Hc.
Qed.

Lemma take_line_None delim s l :
  take_line delim s = (l, None) → l = s ∧ contains delim s = false.
Proof.
  revert l. induction s as [|c s IH]; intros l; simpl.
  - by intros [= <-].
  - destruct (Ascii.eqb c delim) eqn:Hc; [done |].
    destruct (take_line delim s) as [l' k]. intros [= <- ->].
    destruct (IH l' eq_refl) as [-> Hs]. by rewrite Hs.
Qed.

(** A line without the delimiter is what [take_line] cuts off. *)
Lemma take_line_append delim l rest :
  contains delim l = false →
  take_line delim (l +:+ String delim rest) = (l, Some rest).
Proof.
  induction l as [|c l IH]; simpl.
  - intros _. rewrite ?append_empty_l. simpl. by rewrite Ascii.eqb_refl.
  - intros [Hc Hl]%orb_false_iff. rewrite ?append_cons. simpl.
    by rewrite Hc, (IH Hl).
Qed.

Lemma take_line_whole delim l :
  contains delim l = false → take_line delim l = (l, None).
Proof.
  induction l as [|c l IH]; simpl; [done |].
  intros [Hc Hl]%orb_false_iff. by rewrite Hc, (IH Hl).
Qed.

Lemma pieces_from_Some delim s cur l r :
  take_line delim s = (l, Some r) →
  pieces_from delim s cur = (cur +:+ l) :: pieces_from delim r EmptyString.
Proof.
  revert cur l. induction s as [|c s IH]; intros cur l; simpl; [done |].
  destruct (Ascii.eqb c delim).
  - intros [= <- <-]. by rewrite append_empty_r.
  - destruct (take_line delim s) as [l' k]. intros [= <- ->].
    rewrite (IH _ l' eq_refl). by rewrite append_assoc.
Qed.

Lemma pieces_from_None delim s cur l :
  take_line delim s = (l, None) →
  pieces_from delim s cur
  = if is_empty (cur +:+ l) then [] else [cur +:+ l].
Proof.
  revert cur l. induction s as [|c s IH]; intros cur l; simpl.
  - intros [= <-]. by rewrite append_empty_r.
  - destruct (Ascii.eqb c delim); [done |].
    destruct (take_line delim s) as [l' k]. intros [= <- ->].
    rewrite (IH _ l' eq_refl). by rewrite append_assoc.
Qed.

(** With fuel enough for its string, the loop of [SplitString] appends
    the pieces that the character-level reading finds. *)
Lemma SplitString_loop_pieces delim fuel s item elems :
  String.length s + 2 ≤ fuel →
  SplitString_loop fuel (Stream.open s) item delim elems
  = Some (elems ++ pieces_from delim s EmptyString).
Proof.
  revert s item elems.
  induction fuel as [|fuel IH]; intros s item elems Hfuel; [lia |].
  simpl. unfold getline. simpl.
  destruct (take_line delim s) as [l [rest|]] eqn:Hline; simpl.
  - rewrite (pieces_from_Some _ _ _ _ _ Hline), ?append_empty_l.
    apply take_line_rest in Hline as Hless.
    change {| buf := rest; eofbit := false; failbit := false |}
      with (Stream.open rest).
    rewrite IH by lia. by rewrite <- app_assoc.
  - rewrite (pieces_from_None _ _ _ _ Hline), ?append_empty_l.
    destruct (is_empty l); [by rewrite app_nil_r |].
    destruct fuel as [|fuel]; [lia |]. reflexivity.
Qed.

Lemma SplitString_pieces s delim elems :
  SplitString s delim elems = Some (elems ++ pieces_from delim s EmptyString).
Proof. by apply SplitString_loop_pieces. Qed.

Lemma pieces_from_nil delim s cur :
  pieces_from delim s cur = [] ↔ s = EmptyString ∧ cur = EmptyString.
Proof.
  revert cur. induction s as [|c s IH]; intros cur; simpl.
  - destruct cur; simpl; split; try done. by intros [_ [=]].
  - destruct (Ascii.eqb c delim); [split; [done | by intros [[=] _]] |].
    rewrite IH. split; [| by intros [[=] _]].
    intros [_ Hcur]. by destruct cur.
Qed.

Lemma pieces_from_without_delim delim s cur :
  contains delim cur = false →
  Forall (λ p, contains delim p = false) (pieces_from delim s cur).
Proof.
  revert cur. induction s as [|c s IH]; intros cur Hcur; simpl.
  - destruct (is_empty cur); by repeat constructor.
  - destruct (Ascii.eqb c delim) eqn:Hc.
    + constructor; [done |]. by apply IH.
    + apply IH. rewrite contains_append, Hcur. simpl. by rewrite Hc.
Qed.

Lemma pieces_from_join delim s cur :
  let ps := pieces_from delim s cur in
  cur +:+ s = join delim ps ∨
  cur +:+ s = join delim ps +:+ String delim EmptyString.
Proof.
  revert cur. induction s as [|c s IH]; intros cur; simpl.
  - rewrite append_empty_r. left. by destruct cur.
  - destruct (Ascii.eqb c delim) eqn:Hc.
    + apply Ascii.eqb_eq in Hc as ->.
      destruct (pieces_from delim s EmptyString) as [|p ps] eqn:Hps.
      * apply pieces_from_nil in Hps as [-> _]. by right.
      * specialize (IH EmptyString). rewrite Hps in IH.
        rewrite append_empty_l in IH.
        change (join delim (cur :: p :: ps))
          with (cur +:+ String delim (join delim (p :: ps))).
        destruct IH as [-> | ->]; [by left | right].
        by rewrite append_assoc, append_cons.
    + specialize (IH (cur +:+ String c EmptyString)).
      by rewrite append_assoc, append_cons, append_empty_l in IH.
Qed.

Lemma pieces_from_whole delim s cur :
  contains delim s = false →
  pieces_from delim s cur
  = if is_empty (cur +:+ s) then [] else [cur +:+ s].
Proof. intros Hs. by apply pieces_from_None, take_line_whole. Qed.

Lemma pieces_from_last delim dir name cur :
  contains delim name = false → name ≠ EmptyString →
  last (pieces_from delim (dir +:+ String delim name) cur) = Some name.
Proof.
  intros Hname Hne. revert cur.
  induction dir as [|c dir IH]; intros cur.
  - rewrite ?append_empty_l. simpl. rewrite Ascii.eqb_refl.
    rewrite pieces_from_whole, append_empty_l by done.
    by destruct name.
  - rewrite ?append_cons. simpl.
    destruct (Ascii.eqb c delim); [| apply IH].
    rewrite last_cons. by rewrite IH.
Qed.

(** X1.  [SplitString] only appends: the elements already in [elems]
    stay in front, and what is added does not depend on them. *)
Theorem SplitString_keeps_elems s delim elems :
  SplitString s delim elems = (elems ++.) <$> SplitString s delim [].
Proof. by rewrite !SplitString_pieces. Qed.

(** X2.  [SplitString] adds no element exactly when the string is
    empty. *)
Theorem SplitString_adds_nothing_iff_empty s delim elems :
  SplitString s delim elems = Some elems ↔ s = EmptyString.
Proof.
  rewrite SplitString_pieces. split.
  - intros [= H]. rewrite <- (app_nil_r elems) in H at 2.
    apply app_inv_head in H. by apply pieces_from_nil in H as [-> _].
  - intros ->. by rewrite app_nil_r.
Qed.

(** X3.  [SplitString] ends on every string, and no piece it returns
    holds the delimiter. *)
Theorem SplitString_pieces_without_delim s delim :
  ∃ ps, SplitString s delim [] = Some ps ∧
        Forall (λ p, contains delim p = false) ps.
Proof.
  eexists. split; [apply SplitString_pieces |].
  by apply pieces_from_without_delim.
Qed.

(** X4.  Writing the delimiter between the pieces gives the string back,
    but for one delimiter at the very end of the string, which is
    dropped. *)
Theorem SplitString_join s delim :
  ∃ ps, SplitString s delim [] = Some ps ∧
        (s = join delim ps ∨ s = join delim ps +:+ String delim EmptyString).
Proof.
  eexists. split; [apply SplitString_pieces |].
  apply (pieces_from_join delim s EmptyString).
Qed.

(** X5.  The last piece is the file name: what follows the last
    delimiter of a path, or the whole string when it holds none.  That
    element is the one at index [size() - 1]. *)
Theorem SplitString_file_name delim name :
  contains delim name = false → name ≠ EmptyString →
  SplitString name delim [] = Some [name] ∧
  ∀ dir, ∃ ps,
    SplitString (dir +:+ String delim name) delim [] = Some ps ∧
    ps !! (length ps - 1) = Some name.
Proof.
  intros Hname Hne. split.
  - rewrite SplitString_pieces, pieces_from_whole, append_empty_l by done.
    by destruct name.
  - intros dir. eexists. split; [apply SplitString_pieces |].
    rewrite app_nil_l, Nat.sub_1_r, <- last_lookup.
    by apply pieces_from_last.
Qed.

Lemma SplitString_file_name_witness :
  SplitString "depth0.vti" "/" [] = Some ["depth0.vti"] ∧
  ∀ dir, ∃ ps,
    SplitString (dir +:+ String "/" "depth0.vti") "/" [] = Some ps ∧
    ps !! (length ps - 1) = Some "depth0.vti".
Proof. apply SplitString_file_name; [reflexivity | discriminate]. Defined.

(** ** The layout of a calibration file *)

Lemma getline_line l rest str :
  contains "010" l = false →
  getline (Stream.open (l +:+ String "010" rest)) str "010"
  = (Stream.open rest, l).
Proof.
  intros Hl. unfold getline. simpl. by rewrite take_line_append.
Qed.

Lemma getline_first_line s str :
  (getline (Stream.open s) str "010").2 = first_line s.
Proof.
  unfold getline, first_line. simpl.
  by destruct (take_line "010" s) as [l [rest|]].
Qed.

Lemma getline_whole s str :
  contains "010" s = false →
  getline (Stream.open s) str "010"
  = ({| buf := EmptyString; eofbit := true; failbit := is_empty s |}, s).
Proof.
  intros Hs. unfold getline. simpl. by rewrite take_line_whole.
Qed.

Lemma getline_at_eof s str delim :
  eofbit s = true → getline s str delim = (setfail s, str).
Proof. intros H. unfold getline, good. by rewrite H. Qed.

Section KrtdLayout.
Context (num_get : string → option double * string).
Context (fs : gmap string string).

Lemma read_three_values set line m :
  (read_three num_get set (Stream.open line) m).2
  = let '(v0, v1, v2) := three_values num_get line in
    set 2 v2 (set 1 v1 (set 0 v0 m)).
Proof.
  unfold read_three, three_values. simpl.
  destruct (extract_double num_get (Stream.open line) Indeterminate)
    as [iss0 v0].
  destruct (extract_double num_get iss0 Indeterminate) as [iss1 v1].
  by destruct (extract_double num_get iss1 Indeterminate) as [iss2 v2].
Qed.

(** The call of [read_three] on a line, with its value read back. *)
Ltac read_line line :=
  match goal with
  | |- context [read_three num_get ?set (Stream.open line) ?m] =>
      let H := fresh "H" in
      pose proof (read_three_values set line m) as H;
      destruct (read_three num_get set (Stream.open line) m) as [? ?];
      simpl in H; subst
  end.

(** X6.  In a calibration file of at least nine lines, K is read from
    lines 1 to 3, the rotation from lines 5 to 7 and the translation from
    line 9; lines 4 and 8 are skipped whatever they hold, and so is what
    follows line 9.  The translation lands in the fourth column and the
    fourth row is 0, 0, 0, 1. *)
Theorem ReadKrtdFile_layout filename K TR w k0 k1 k2 s1 r0 r1 r2 s2 tail :
  fs !! filename = Some (text_lines [k0; k1; k2; s1; r0; r1; r2; s2] tail) →
  Forall (λ l, contains "010" l = false) [k0; k1; k2; s1; r0; r1; r2; s2] →
  length K = 9 → length TR = 16 →
  ReadKrtdFile num_get fs filename K TR w
  = Ok (true,
        row3 (three_values num_get k0) ++ row3 (three_values num_get k1)
        ++ row3 (three_values num_get k2),
        pose_matrix (three_values num_get r0) (three_values num_get r1)
          (three_values num_get r2)
          (three_values num_get (first_line tail)))
       w.
Proof.
  intros Hfile Hlines HK HTR.
  repeat match goal with
  | H : Forall _ (_ :: _) |- _ => apply Forall_cons in H as [? H]
  end.
  unfold ReadKrtdFile. rewrite Hfile.
  unfold read_rows, text_lines. cbn [foldl foldr].
  rewrite getline_line by done. cbv beta iota. read_line k0.
  rewrite getline_line by done. cbv beta iota. read_line k1.
  rewrite getline_line by done. cbv beta iota. read_line k2.
  rewrite getline_line by done. cbv beta iota.
  rewrite getline_line by done. cbv beta iota. read_line r0.
  rewrite getline_line by done. cbv beta iota. read_line r1.
  rewrite getline_line by done. cbv beta iota. read_line r2.
  rewrite getline_line by done. cbv beta iota.
  pose proof (getline_first_line tail s2) as Hlast.
  destruct (getline (Stream.open tail) s2 "010") as [file9 line9].
  simpl in Hlast. subst line9.
  read_line (first_line tail).
  destruct (three_values num_get k0) as [[? ?] ?],
    (three_values num_get k1) as [[? ?] ?],
    (three_values num_get k2) as [[? ?] ?],
    (three_values num_get r0) as [[? ?] ?],
    (three_values num_get r1) as [[? ?] ?],
    (three_values num_get r2) as [[? ?] ?],
    (three_values num_get (first_line tail)) as [[? ?] ?].
  do 10 (destruct K as [|? K]; try discriminate HK).
  do 17 (destruct TR as [|? TR]; try discriminate HTR).
  reflexivity.
Qed.

(** X7.  A calibration file without any newline (one line, or nothing at
    all) is accepted, and every row of K, every row of the rotation and
    the translation are all read from that one line: once the file is at
    its end, [getline] fails and [line] keeps what it held. *)
Theorem ReadKrtdFile_one_line filename K TR w content :
  fs !! filename = Some content →
  contains "010" content = false →
  length K = 9 → length TR = 16 →
  let v := three_values num_get content in
  ReadKrtdFile num_get fs filename K TR w
  = Ok (true, row3 v ++ row3 v ++ row3 v, pose_matrix v v v v) w.
Proof.
  intros Hfile Hline HK HTR v. subst v.
  unfold ReadKrtdFile. rewrite Hfile.
  unfold read_rows. cbn [foldl].
  rewrite getline_whole by done. cbv beta iota. read_line content.
  do 2 (rewrite getline_at_eof by done; cbv beta iota; read_line content).
  rewrite getline_at_eof by done. cbv beta iota.
  do 3 (rewrite getline_at_eof by done; cbv beta iota; read_line content).
  rewrite getline_at_eof by done. cbv beta iota.
  rewrite getline_at_eof by done. cbv beta iota. read_line content.
  destruct (three_values num_get content) as [[v0 v1] v2].
  do 10 (destruct K as [|? K]; try discriminate HK).
  do 17 (destruct TR as [|? TR]; try discriminate HTR).
  reflexivity.
Qed.

Lemma SetElement3_length i j v (m : vtkMatrix3x3) :
  length (Matrix3x3.SetElement i j v m) = length m.
Proof. apply length_insert. Qed.

(** X8.  [ReadKrtdFile] keeps the sizes of the two matrices it fills.  A
    call that returns [false] leaves both matrices as they were and
    writes one line to the error output; a call that returns [true]
    prints nothing. *)
Theorem ReadKrtdFile_keeps_sizes filename K TR w b K' TR' w' :
  ReadKrtdFile num_get fs filename K TR w = Ok (b, K', TR') w' →
  length K' = length K ∧ length TR' = length TR ∧
  (b = true → w' = w) ∧
  (b = false →
   K' = K ∧ TR' = TR ∧
   w' = add_event
          (cerr ("Unable to open krtd file : " +:+ filename +:+ endl)) w).
Proof.
  unfold ReadKrtdFile.
  destruct (fs !! filename) as [content|].
  2: { intros [= <- <- <- <-]. by repeat split. }
  pose proof (read_rows_length num_get Matrix3x3.SetElement) as HrowsK.
  pose proof (read_rows_length num_get Matrix4x4.SetElement) as Hrows.
  pose proof (read_three_length num_get (λ i, Matrix4x4.SetElement i 3))
    as Hthree.
  specialize (HrowsK (Stream.open content) EmptyString K SetElement3_length).
  destruct (read_rows num_get Matrix3x3.SetElement _ _ K)
    as [[file1 line1] K1].
  destruct (getline file1 line1 _) as [file2 line2].
  specialize (Hrows file2 line2 TR (SetElement4_length)).
  destruct (read_rows num_get Matrix4x4.SetElement file2 line2 TR)
    as [[file3 line3] TR3].
  destruct (getline file3 line3 _) as [file4 line4].
  destruct (getline file4 line4 _) as [file5 line5].
  specialize (Hthree (Stream.open line5) TR3 (λ j, SetElement4_length j 3)).
  destruct (read_three num_get _ (Stream.open line5) TR3) as [iss TR4].
  simpl in HrowsK, Hrows, Hthree.
  intros [= <- <- <- <-]. repeat split; try done.
  rewrite SetElement4_length. simpl. rewrite !SetElement4_length.
  congruence.
Qed.

End KrtdLayout.

(** ** What loading reads, loads and reports *)

Lemma shown_trace a s w :
  trace (shown a s w)
  = trace w ++ (if verbose a then [cout (s +:+ endl +:+ endl)] else []).
Proof. unfold shown. destruct (verbose a); [done | by rewrite app_nil_r]. Qed.

Lemma reads_app tr tr' : reads (tr ++ tr') = reads tr + reads tr'.
Proof. unfold reads. by rewrite List.filter_app, length_app. Qed.

Lemma errors_app tr tr' : errors (tr ++ tr') = errors tr + errors tr'.
Proof. unfold errors. by rewrite List.filter_app, length_app. Qed.

Lemma read_by_name_mono a tr tr' d :
  read_by_name a tr' d → read_by_name a (tr ++ tr') d.
Proof.
  intros (name & Hd & Hname & Hin). exists name.
  repeat split; try done. apply elem_of_app. by right.
Qed.

Lemma SplitString_piece_without_delim s delim elems i name :
  SplitString s delim [] = Some elems → elems !! i = Some name →
  contains delim name = false.
Proof.
  rewrite SplitString_pieces. intros [= <-] Hname.
  pose proof (pieces_from_without_delim delim s EmptyString eq_refl) as H.
  by apply (proj1 (Forall_lookup _ _) H i name).
Qed.

Section LoadingEvents.
Context (num_get : string → option double * string).
Context (fs : gmap string string).

(** What the loop adds to the world it starts in. *)
Lemma ReadContainers_events a fuel c w :
  sane (depthMapContainer c) →
  rounds_left (depthMapContainer c) < fuel →
  wp (ReadContainers num_get fs fuel a c)
     (λ _ w', ∃ tr views,
        trace w' = trace w ++ tr ∧
        g_dataList w' = g_dataList w ++ views ∧
        Forall (λ e, is_reader e || is_cerr e = true) tr ∧
        reads tr = length views + errors tr ∧
        Forall (read_by_name a tr) views)
     (λ _ _, False) w.
Proof.
  revert c w. induction fuel as [|fuel IH]; intros c w Hsane Hfuel; [lia |].
  simpl. destruct (eof (depthMapContainer c)) eqn:Heof.
  { apply wp_ret. exists [], []. by rewrite !app_nil_r. }
  destruct (getline (depthMapContainer c) (depthMapPath c) "010")
    as [dmc path] eqn:Hline.
  destruct (getline_progress _ _ _ _ _ Heof Hsane Hline) as [Hsane' Hless].
  assert (rounds_left dmc < fuel) as Hfuel' by lia.
  apply wp_bind, wp_fuelled; [apply SplitString_total |]. intros elems Helems.
  destruct (length elems =? 0)%nat; [by apply IH |].
  apply wp_bind, wp_defined. intros name Hname.
  apply (SplitString_piece_without_delim _ _ _ _ _ Helems) in Hname.
  apply wp_bind, wp_emit.
  destruct (getline (matrixContainer c) (matrixPath c) "010") as [mc mpath].
  apply wp_bind, wp_fuelled; [apply SplitString_total |]. intros elems' _.
  apply wp_bind, wp_defined. intros name' _.
  apply wp_bind.
  set (p := g_pathFolder a +:+ backslash +:+ name).
  destruct (ReadKrtdFile_cases num_get fs
              (g_pathFolder a +:+ backslash +:+ name')
              Matrix3x3.New Matrix4x4.New (add_event (ReaderUpdate p) w))
    as [[Hnone Hread] | [Hsome (K & TR & _ & Hread)]].
  - unfold wp at 1. rewrite Hread. simpl.
    eapply wp_mono; [apply IH; try done | | done].
    intros _ w' (tr & views & Htr & Hdl & Hev & Hcount & Hviews).
    simpl in Htr, Hdl.
    eexists (ReaderUpdate p :: cerr _ :: tr), views.
    split; [by rewrite Htr, <- !app_assoc |]. split; [done |].
    split; [by repeat constructor |].
    split; [unfold reads, errors in *; simpl; lia |].
    eapply Forall_impl; [exact Hviews |].
    intros d Hd. by apply (read_by_name_mono a [_; _]).
  - unfold wp at 1. rewrite Hread. simpl.
    apply wp_bind, wp_get_dataList. apply wp_bind. unfold wp at 1. simpl.
    eapply wp_mono; [apply IH; try done | | done].
    intros _ w' (tr & views & Htr & Hdl & Hev & Hcount & Hviews).
    simpl in Htr, Hdl.
    eexists (ReaderUpdate p :: tr), (_ :: views).
    split; [by rewrite Htr, <- !app_assoc |].
    split; [by rewrite Hdl, <- !app_assoc |].
    split; [by repeat constructor |].
    split; [unfold reads, errors in *; simpl; lia |].
    constructor.
    + exists name. repeat split; try done. apply list_elem_of_here.
    + eapply Forall_impl; [exact Hviews |].
      intros d Hd. by apply (read_by_name_mono a [_]).
Qed.

Lemma CreateReconstructionData_events a w :
  wp (CreateReconstructionData num_get fs a)
     (λ b w', ∃ tr,
        trace w' = trace w ++ tr ∧ Forall (expected a) tr ∧
        (containers_open fs a →
         reads tr = length (g_dataList w') + errors tr ∧
         Forall (read_by_name a tr) (g_dataList w') ∧
         (b = true ↔ g_dataList w' ≠ [])) ∧
        (¬ containers_open fs a →
         b = false ∧ g_dataList w' = g_dataList w ∧ reads tr = 0))
     (λ _ _, False) w.
Proof.
  unfold CreateReconstructionData, containers_open.
  apply wp_bind, wp_shown.
  set (s1 := "Read depth map and matrix files...").
  assert (Forall (expected a)
            (if verbose a then [cout (s1 +:+ endl +:+ endl)] else []))
    as Hbits.
  { destruct (verbose a) eqn:Hv; by repeat constructor. }
  assert (∀ s, Forall (expected a)
            (if verbose a then [cout s] else [])) as Hbit.
  { intros s. destruct (verbose a) eqn:Hv; by repeat constructor. }
  assert (∀ s, reads (if verbose a then [cout s] else []) = 0) as Hr0
    by (intros s; by destruct (verbose a)).
  assert (∀ s, errors (if verbose a then [cout s] else []) = 0) as He0
    by (intros s; by destruct (verbose a)).
  destruct (fs !! (g_pathFolder a +:+ backslash +:+ g_depthMapContainer a))
    as [dmap|];
    [destruct (fs !! (g_pathFolder a +:+ backslash +:+ g_KRTContainer a))
       as [krt|] |].
  - apply wp_bind. unfold wp at 1. simpl.
    apply wp_bind.
    eapply wp_mono; [apply ReadContainers_events | | done].
    + done.
    + unfold rounds_left. simpl. lia.
    + intros _ w' (tr & views & Htr & Hdl & Hev & Hcount & Hviews).
      simpl in Htr, Hdl. rewrite shown_trace in Htr. subst views.
      assert (Forall (expected a) tr) as Hev'.
      { eapply Forall_impl; [exact Hev |]. by intros []. }
      apply wp_bind, wp_get_dataList.
      destruct (g_dataList w') as [|d l] eqn:Hl; simpl.
      * apply wp_ret. eexists. split; [by rewrite Htr, <- app_assoc |].
        split; [by apply Forall_app |].
        split; [| intros Hn; exfalso; apply Hn; split; by eexists].
        intros _. rewrite reads_app, errors_app, Hr0, He0, Hl.
        split; [done |]. split; [done |]. by split.
      * apply wp_bind, wp_shown, wp_ret.
        rewrite shown_trace, shown_dataList, Hl, Htr.
        eexists. split; [by rewrite <- !app_assoc |].
        split; [by rewrite !Forall_app |].
        split; [| intros Hn; exfalso; apply Hn; split; by eexists].
        intros _. rewrite !reads_app, !errors_app, !Hr0, !He0, Hcount.
        split; [simpl; lia |]. split; [| by split].
        eapply Forall_impl; [exact Hviews |].
        intros d' Hd'. apply read_by_name_mono.
        destruct Hd' as (name & ? & ? & ?). exists name.
        repeat split; try done. apply elem_of_app. by left.
  - apply wp_bind, wp_emit, wp_ret. simpl. rewrite shown_trace.
    eexists. split; [by rewrite <- app_assoc |].
    split; [apply Forall_app; split; [done | by repeat constructor] |].
    split; [by intros [_ [? [=]]] |].
    intros _. rewrite shown_dataList, reads_app, Hr0. by repeat split.
  - apply wp_bind, wp_emit, wp_ret. simpl. rewrite shown_trace.
    eexists. split; [by rewrite <- app_assoc |].
    split; [apply Forall_app; split; [done | by repeat constructor] |].
    split; [by intros [[? [=]] _] |].
    intros _. rewrite shown_dataList, reads_app, Hr0. by repeat split.
Qed.

(** X9.  When both container files open, every depth map that was read
    is accounted for: the number of depth maps read is the number of
    views in [g_dataList] plus the number of lines written to the error
    output.  The list holds the views of this call only. *)
Theorem depth_maps_read_are_loaded_or_reported a w b w' :
  containers_open fs a →
  CreateReconstructionData num_get fs a w = Ok b w' →
  ∃ tr, trace w' = trace w ++ tr ∧
        reads tr = length (g_dataList w') + errors tr.
Proof.
  intros Hopen Hrun.
  pose proof (CreateReconstructionData_events a w) as H.
  apply (wp_Ok _ _ _ _ _ _ H) in Hrun as (tr & Htr & _ & Hyes & _).
  exists tr. split; [done |]. by apply Hyes.
Qed.

(** X10.  When both container files open, the depth map of every loaded
    view is the output of an image read that took place, and the path
    read is [g_pathFolder], a backslash and a name that holds no '/'
    (the name may hold backslashes). *)
Theorem depth_map_names_hold_no_slash a w b w' :
  containers_open fs a →
  CreateReconstructionData num_get fs a w = Ok b w' →
  Forall (read_by_name a (trace w')) (g_dataList w').
Proof.
  intros Hopen Hrun.
  pose proof (CreateReconstructionData_events a w) as H.
  apply (wp_Ok _ _ _ _ _ _ H) in Hrun as (tr & Htr & _ & Hyes & _).
  destruct (Hyes Hopen) as (_ & Hviews & _). rewrite Htr.
  eapply Forall_impl; [exact Hviews |].
  intros d Hd. by apply read_by_name_mono.
Qed.

(** X11.  [CreateReconstructionData] returns [true] exactly when both
    container files open and at least one view was loaded.  When a
    container file does not open, no depth map is read and [g_dataList]
    is left as it was, not cleared. *)
Theorem CreateReconstructionData_true_iff a w b w' :
  CreateReconstructionData num_get fs a w = Ok b w' →
  (b = true ↔ containers_open fs a ∧ g_dataList w' ≠ []) ∧
  (¬ containers_open fs a →
   g_dataList w' = g_dataList w ∧
   ∃ tr, trace w' = trace w ++ tr ∧ reads tr = 0).
Proof.
  intros Hrun.
  pose proof (CreateReconstructionData_events a w) as H.
  apply (wp_Ok _ _ _ _ _ _ H) in Hrun as (tr & Htr & _ & Hyes & Hno).
  split.
  - destruct (decide (containers_open fs a)) as [Hopen | Hclosed].
    + destruct (Hyes Hopen) as (_ & _ & ->). tauto.
    + destruct (Hno Hclosed) as (-> & _). split; [done | tauto].
  - intros Hclosed. destruct (Hno Hclosed) as (_ & Hdl & Hreads).
    split; [done |]. by exists tr.
Qed.

End LoadingEvents.

(** ** What a run prints and what it asks of the pipeline *)

Lemma pipeline_app tr tr' : pipeline (tr ++ tr') = pipeline tr ++ pipeline tr'.
Proof. apply List.filter_app. Qed.

Lemma expected_pipeline a tr : Forall (expected a) tr → pipeline tr = [].
Proof.
  induction 1 as [|e tr He _ IH]; [done |].
  unfold pipeline in *. simpl. by destruct e.
Qed.

Lemma expected_announced a tr :
  Forall (expected a) tr → Forall (announced a) tr.
Proof. intros H. eapply Forall_impl; [exact H |]. by intros []. Qed.

Lemma pipeline_elem e tr : e ∈ tr → is_pipeline e = true → e ∈ pipeline tr.
Proof.
  intros He Hp. apply list_elem_of_In, List.filter_In.
  split; [by apply list_elem_of_In | done].
Qed.

Lemma wp_conj {A} (m : M A) Q Q' E E' w :
  wp m Q E w → wp m Q' E' w →
  wp m (λ a w', Q a w' ∧ Q' a w') (λ e w', E e w' ∧ E' e w') w.
Proof. unfold wp. by destruct (m w). Qed.

(** What [ReadArguments] prints. *)
Lemma ReadArguments_events a w :
  match ReadArguments a w with
  | Ok b w' =>
      g_dataList w' = g_dataList w ∧ g_gridMatrix w' = g_gridMatrix w ∧
      ∃ tr, trace w' = trace w ++ tr ∧ pipeline tr = [] ∧
            (b = true → tr = []) ∧ (b = false → reported a tr) ∧
            ((result a =? 0)%Z || help a = false → Forall (announced a) tr)
  | Undefined => True
  | Raised _ _ | OutOfFuel => False
  end.
Proof.
  unfold ReadArguments.
  destruct ((result a =? 0)%Z || help a).
  { simpl. repeat split. eexists. split; [done |].
    repeat split; try done. intros _. left. apply list_elem_of_here. }
  destruct (String.eqb (g_outputGridFilename a) EmptyString
            || String.eqb (g_depthMapContainer a) EmptyString
            || String.eqb (g_KRTContainer a) EmptyString).
  { simpl. repeat split. eexists.
    split; [by rewrite <- app_assoc |].
    repeat split; try done; [| by repeat constructor].
    intros _. right. eexists. apply list_elem_of_here. }
  unfold mbind, M_bind, defined.
  destruct (AreVectorsOrthogonal a) as [[|]|]; simpl; try done.
  - repeat split. exists []. by rewrite app_nil_r.
  - repeat split. eexists. split; [done |].
    repeat split; try done; [| by repeat constructor].
    intros _. right. eexists. apply list_elem_of_here.
Qed.

Section RunEvents.
Context (num_get : string → option double * string).
Context (to_string : double → string).
Context (fs : gmap string string).
Context (ExecutionTime : double).

#[local] Abbreviation Main := (main num_get to_string fs ExecutionTime).

Lemma main_events a :
  wp (Main a)
     (λ c w,
        ((result a =? 0)%Z || help a = false →
         Forall (announced a) (trace w)) ∧
        ((c = EXIT_FAILURE ∧ pipeline (trace w) = [] ∧
          reported a (trace w)) ∨
         (c = EXIT_SUCCESS ∧ g_dataList w = [] ∧ g_gridMatrix w = None ∧
          grid_written a w)))
     (λ _ w,
        ((result a =? 0)%Z || help a = false →
         Forall (announced a) (trace w)) ∧
        pipeline (trace w) = [])
     initial_world.
Proof.
  unfold main. apply wp_bind.
  pose proof (ReadArguments_events a initial_world) as Hargs.
  unfold wp at 1.
  destruct (ReadArguments a initial_world) as [ok w1| | |]; try done.
  destruct Hargs as (_ & _ & tr1 & Htr1 & Hp1 & Htrue & Hfalse & Hann1).
  simpl in Htr1.
  destruct ok; simpl.
  2: { apply wp_ret. rewrite Htr1. split; [done |]. left. auto. }
  rewrite (Htrue eq_refl) in Htr1. clear tr1 Hp1 Htrue Hfalse Hann1.
  apply wp_bind, wp_shown, wp_bind.
  eapply wp_mono; [apply (CreateReconstructionData_events num_get fs) | | done].
  intros b w2 (tr & Htr & Hexp & Hopen & Hclosed).
  rewrite shown_trace, Htr1 in Htr. simpl in Htr.
  assert (Forall (expected a) (trace w2)) as Hexp2.
  { rewrite Htr. apply Forall_app. split; [| done].
    destruct (verbose a) eqn:Hv; by repeat constructor. }
  assert (b = true → g_dataList w2 ≠ []) as Hne.
  { intros ->. destruct (decide (containers_open fs a)) as [Hyes | Hno].
    - by apply Hopen.
    - by destruct (Hclosed Hno) as ([=] & _). }
  clear tr Htr Hexp Hopen Hclosed.
  pose proof (expected_pipeline a _ Hexp2) as Hp2.
  pose proof (expected_announced a _ Hexp2) as Hann2.
  destruct b; simpl.
  2: { apply wp_bind, wp_emit, wp_ret. simpl. split.
       - intros _. apply Forall_app. split; [done | by repeat constructor].
       - left. split; [done |]. rewrite pipeline_app, Hp2.
         split; [done |]. right. eexists. apply elem_of_app. right.
         apply list_elem_of_here. }
  specialize (Hne eq_refl).
  apply wp_bind.
  destruct (decide (three_components a)) as [(HX & HY & HZ) | Hshort].
  2: { unfold wp at 1. by rewrite CreateGridMatrixFromInput_Undefined. }
  apply array3_is_Some in HX as [X HX], HY as [Y HY], HZ as [Z HZ].
  destruct (CreateGridMatrixFromInput_Ok to_string a w2 X Y Z HX HY HZ)
    as [info Hgrid].
  unfold wp at 1. rewrite Hgrid.
  apply wp_bind, wp_defined. intros dims Hdims.
  apply wp_bind, wp_defined. intros spacing Hspacing.
  apply wp_bind, wp_defined. intros origin Horigin.
  apply wp_bind, wp_shown.
  unfold SetRayPotentialRho, SetRayPotentialThickness.
  apply wp_bind.
  destruct (rayPotentialRho a <=? 0)%float.
  { apply wp_raise. unfold shown, add_event.
    destruct (verbose a) eqn:Hv; simpl;
      rewrite ?pipeline_app, ?Forall_app, Hp2;
      repeat split; try done; by repeat constructor. }
  apply wp_ret, wp_bind.
  destruct (rayPotentialThick a <=? 0)%float.
  { apply wp_raise. unfold shown, add_event.
    destruct (verbose a) eqn:Hv; simpl;
      rewrite ?pipeline_app, ?Forall_app, Hp2;
      repeat split; try done; by repeat constructor. }
  apply wp_ret.
  apply wp_bind, wp_get_dataList, wp_bind, wp_get_gridMatrix.
  rewrite !shown_dataList, !shown_gridMatrix. simpl.
  apply wp_bind, wp_defined. intros m [= <-].
  apply wp_bind, wp_emit, wp_bind, wp_shown, wp_bind, wp_shown.
  apply wp_bind, wp_emit, wp_bind, wp_shown, wp_bind, wp_emit.
  apply wp_bind. unfold wp at 1. simpl.
  apply wp_bind. unfold wp at 1. simpl.
  apply wp_bind, wp_shown, wp_ret.
  rewrite shown_dataList, shown_gridMatrix. simpl.
  assert ((if noCuda a then false else true) = negb (noCuda a)) as ->
    by (by destruct (noCuda a)).
  split.
  - intros _. unfold shown, add_event.
    destruct (verbose a) eqn:Hv; simpl;
      rewrite ?Forall_app; repeat split; try done; by repeat constructor.
  - right. split; [done |]. split; [done |]. split; [done |].
    eexists (g_dataList w2), _. split; [done |]. split.
    + by exists X, Y, Z, dims, spacing, origin.
    + unfold shown, add_event.
      destruct (verbose a); simpl; rewrite !pipeline_app, Hp2; reflexivity.
Qed.

(** X13.  Without [--verbose], a run whose arguments parsed and did not
    ask for help writes nothing to the standard output, however it
    ends. *)
Theorem quiet_run_prints_nothing_on_stdout a :
  verbose a = false → result a ≠ 0%Z → help a = false →
  Forall (λ e, is_cout e = false)
    (final_trace (Main a initial_world)).
Proof.
  intros Hquiet Hresult Hhelp.
  assert ((result a =? 0)%Z || help a = false) as Hparsed.
  { rewrite Hhelp, orb_false_r. by apply Z.eqb_neq. }
  assert (∀ tr, Forall (announced a) tr → Forall (λ e, is_cout e = false) tr)
    as Hsilent.
  { intros tr H. eapply Forall_impl; [exact H |].
    intros [] He; try done. simpl in He. congruence. }
  pose proof (main_events a) as H. unfold wp in H. unfold final_trace.
  destruct (Main a initial_world) as [c w| |e w|]; try done.
  - apply Hsilent, H, Hparsed.
  - apply Hsilent, H, Hparsed.
Qed.

(** X14.  A run that returns [EXIT_SUCCESS] ran the filter, the transform
    and the writer once each, in this order.  The filter got rho and
    thickness from the command line, [UseCuda] opposite to [--noCuda], a
    grid made of the first three values of the dimensions, the spacing
    and the origin, a data list that is not empty and the grid matrix of
    the three vectors; the transform used that same matrix, and the
    writer wrote its output to [--outputGridFilename].  At the end
    [g_dataList] is empty and [g_gridMatrix] released. *)
Theorem successful_run_pipeline a w :
  Main a initial_world = Ok EXIT_SUCCESS w →
  grid_written a w ∧ g_dataList w = [] ∧ g_gridMatrix w = None.
Proof.
  intros Hrun. pose proof (main_events a) as H.
  apply (wp_Ok _ _ _ _ _ _ H) in Hrun as [_ [([=] & _) | (_ & ? & ? & ?)]].
  done.
Qed.

(** X15.  [main] returns [EXIT_SUCCESS] or [EXIT_FAILURE], and
    [EXIT_SUCCESS] exactly when the grid writer wrote to the output file
    of the command line. *)
Theorem exit_status_tells_grid_written a c w :
  Main a initial_world = Ok c w →
  (c = EXIT_SUCCESS ∨ c = EXIT_FAILURE) ∧
  (c = EXIT_SUCCESS
   ↔ ∃ input, GridWriterWrite (g_outputGridFilename a) input ∈ trace w).
Proof.
  intros Hrun. pose proof (main_events a) as H.
  apply (wp_Ok _ _ _ _ _ _ H) in Hrun
    as [_ [(-> & Hp & _) | (-> & _ & _ & views & f & _ & _ & Hp)]].
  - split; [by right |]. split; [done |].
    intros [input Hin]. apply pipeline_elem in Hin; [| done].
    rewrite Hp in Hin. by apply elem_of_nil in Hin.
  - split; [by left |]. split; [| done]. intros _. eexists.
    assert (∀ e, e ∈ pipeline (trace w) → e ∈ trace w) as Hsub.
    { intros e He. apply list_elem_of_In, List.filter_In in He as [He _].
      by apply list_elem_of_In. }
    apply Hsub. rewrite Hp. rewrite !elem_of_cons. auto.
Qed.

(** X16.  A run that returns [EXIT_FAILURE] has said why: the help text
    went to the standard output or at least one line to the error
    output. *)
Theorem failing_run_is_reported a w :
  Main a initial_world = Ok EXIT_FAILURE w → reported a (trace w).
Proof.
  intros Hrun. pose proof (main_events a) as H.
  apply (wp_Ok _ _ _ _ _ _ H) in Hrun as [_ [(_ & _ & ?) | ([=] & _)]].
  done.
Qed.

End RunEvents.

Lemma bind_Ok {A B} (m : M A) (f : A → M B) w a w' :
  m w = Ok a w' → (m ≫= f) w = f a w'.
Proof. intros H. unfold mbind, M_bind. by rewrite H. Qed.

Lemma bind_Undefined {A B} (m : M A) (f : A → M B) w :
  m w = Undefined → (m ≫= f) w = Undefined.
Proof. intros H. unfold mbind, M_bind. by rewrite H. Qed.

Section BlankMatrixLine.
Context (num_get : string → option double * string).
Context (fs : gmap string string).

Lemma ReadContainers_blank_matrix_line fuel a dmap krt dpath mpath w :
  first_line dmap ≠ EmptyString → first_line krt = EmptyString →
  ReadContainers num_get fs (S fuel) a
    {| depthMapContainer := Stream.open dmap;
       matrixContainer := Stream.open krt;
       depthMapPath := dpath; matrixPath := mpath |} w
  = Undefined.
Proof.
  intros Hfirst Hblank. simpl.
  pose proof (getline_first_line dmap dpath) as Hl.
  destruct (getline (Stream.open dmap) dpath "010") as [dmc l].
  simpl in Hl. subst l.
  rewrite SplitString_pieces. rewrite app_nil_l.
  destruct (pieces_from "/" (first_line dmap) EmptyString) as [|p ps] eqn:Hps.
  { by apply pieces_from_nil in Hps as [? _]. }
  rewrite (bind_Ok _ _ _ (p :: ps) w) by done.
  change (length (p :: ps) =? 0)%nat with false. cbv beta iota.
  destruct (lookup_lt_is_Some_2 (p :: ps) (length (p :: ps) - 1))
    as [name Hname]; [simpl; lia |].
  rewrite (bind_Ok _ _ _ name w) by (by rewrite Hname).
  rewrite (bind_Ok _ _ _ () _) by done.
  pose proof (getline_first_line krt mpath) as Hk.
  destruct (getline (Stream.open krt) mpath "010") as [mc l].
  simpl in Hk. subst l. rewrite Hblank.
  rewrite (bind_Ok _ _ _ [] _) by done.
  by apply bind_Undefined.
Qed.

(** X12.  When the first line of the depth-map list names a file and the
    first line of the matrix list is empty (an empty matrix list, for
    one), [CreateReconstructionData] indexes an empty vector: the
    behaviour is undefined, where a [false] would be expected. *)
Theorem blank_matrix_line_is_undefined a w dmap krt :
  fs !! (g_pathFolder a +:+ backslash +:+ g_depthMapContainer a) = Some dmap →
  fs !! (g_pathFolder a +:+ backslash +:+ g_KRTContainer a) = Some krt →
  first_line dmap ≠ EmptyString → first_line krt = EmptyString →
  CreateReconstructionData num_get fs a w = Undefined.
Proof.
  intros Hdmap Hkrt Hfirst Hblank.
  unfold CreateReconstructionData.
  rewrite (bind_Ok _ _ _ _ _ (ShowInformation_eq _ _ _)).
  cbv beta zeta. rewrite Hdmap, Hkrt.
  rewrite (bind_Ok _ _ _ () _) by done.
  apply bind_Undefined.
  rewrite Nat.add_comm.
  by apply ReadContainers_blank_matrix_line.
Qed.

End BlankMatrixLine.

(** ** The order of the views and where their calibration comes from *)

Lemma depth_maps_read_app tr tr' :
  depth_maps_read (tr ++ tr') = depth_maps_read tr ++ depth_maps_read tr'.
Proof. apply omap_app. Qed.

Lemma depth_maps_read_shown a s :
  depth_maps_read (if verbose a then [cout s] else []) = [].
Proof. by destruct (verbose a). Qed.

Section LoadingOrder.
Context (num_get : string → option double * string).
Context (fs : gmap string string).

Lemma ReadContainers_order a fuel c w :
  sane (depthMapContainer c) →
  rounds_left (depthMapContainer c) < fuel →
  wp (ReadContainers num_get fs fuel a c)
     (λ _ w', ∃ tr views,
        trace w' = trace w ++ tr ∧
        g_dataList w' = g_dataList w ++ views ∧
        omap DepthMap views `sublist_of` depth_maps_read tr ∧
        Forall (calibrated_by_name num_get fs a) views)
     (λ _ _, False) w.
Proof.
  revert c w. induction fuel as [|fuel IH]; intros c w Hsane Hfuel; [lia |].
  simpl. destruct (eof (depthMapContainer c)) eqn:Heof.
  { apply wp_ret. exists [], []. by rewrite !app_nil_r. }
  destruct (getline (depthMapContainer c) (depthMapPath c) "010")
    as [dmc path] eqn:Hline.
  destruct (getline_progress _ _ _ _ _ Heof Hsane Hline) as [Hsane' Hless].
  assert (rounds_left dmc < fuel) as Hfuel' by lia.
  apply wp_bind, wp_fuelled; [apply SplitString_total |]. intros elems _.
  destruct (length elems =? 0)%nat; [by apply IH |].
  apply wp_bind, wp_defined. intros name _.
  apply wp_bind, wp_emit.
  destruct (getline (matrixContainer c) (matrixPath c) "010") as [mc mpath].
  apply wp_bind, wp_fuelled; [apply SplitString_total |].
  intros elems' Helems'.
  apply wp_bind, wp_defined. intros name' Hname'.
  apply (SplitString_piece_without_delim _ _ _ _ _ Helems') in Hname'.
  apply wp_bind.
  set (p := g_pathFolder a +:+ backslash +:+ name).
  destruct (ReadKrtdFile_cases num_get fs
              (g_pathFolder a +:+ backslash +:+ name')
              Matrix3x3.New Matrix4x4.New (add_event (ReaderUpdate p) w))
    as [[Hnone Hread] | [Hsome (K & TR & _ & Hread)]].
  - unfold wp at 1. rewrite Hread. simpl.
    eapply wp_mono; [apply IH; try done | | done].
    intros _ w' (tr & views & Htr & Hdl & Hsub & Hcal).
    simpl in Htr, Hdl.
    eexists (ReaderUpdate p :: cerr _ :: tr), views.
    split; [by rewrite Htr, <- !app_assoc |]. split; [done |].
    split; [| done]. simpl. by apply sublist_cons.
  - unfold wp at 1. rewrite Hread. simpl.
    apply wp_bind, wp_get_dataList. apply wp_bind. unfold wp at 1. simpl.
    eapply wp_mono; [apply IH; try done | | done].
    intros _ w' (tr & views & Htr & Hdl & Hsub & Hcal).
    simpl in Htr, Hdl.
    eexists (ReaderUpdate p :: tr), (_ :: views).
    split; [by rewrite Htr, <- !app_assoc |].
    split; [by rewrite Hdl, <- !app_assoc |].
    split; [simpl; by apply sublist_skip |].
    constructor; [| done]. by exists name', K, TR.
Qed.

(** What [CreateReconstructionData] is made of when both container files
    open: the loop from an empty list, then at most one more line on the
    standard output. *)
Lemma CreateReconstructionData_open a w b w' dmap krt :
  fs !! (g_pathFolder a +:+ backslash +:+ g_depthMapContainer a) = Some dmap →
  fs !! (g_pathFolder a +:+ backslash +:+ g_KRTContainer a) = Some krt →
  CreateReconstructionData num_get fs a w = Ok b w' →
  ∃ w2 extra,
    ReadContainers num_get fs (String.length dmap + 2) a
      {| depthMapContainer := Stream.open dmap;
         matrixContainer := Stream.open krt;
         depthMapPath := EmptyString; matrixPath := EmptyString |}
      {| g_dataList := [];
         g_gridMatrix :=
           g_gridMatrix (shown a "Read depth map and matrix files..." w);
         trace := trace (shown a "Read depth map and matrix files..." w) |}
    = Ok () w2 ∧
    g_dataList w' = g_dataList w2 ∧
    trace w' = trace w2 ++ extra ∧ depth_maps_read extra = [].
Proof.
  intros Hdmap Hkrt. unfold CreateReconstructionData.
  rewrite (bind_Ok _ _ _ _ _ (ShowInformation_eq _ _ _)).
  cbv beta zeta. rewrite Hdmap, Hkrt.
  rewrite (bind_Ok _ _ _ () _) by done.
  unfold mbind at 1, M_bind at 1.
  destruct (ReadContainers _ _ _ _ _ _) as [[] w2| | |]; try done.
  rewrite (bind_Ok get_dataList _ w2 (g_dataList w2) w2 eq_refl).
  destruct (length (g_dataList w2) =? 0)%nat.
  - intros [= <- <-]. exists w2, []. by rewrite app_nil_r.
  - rewrite (bind_Ok _ _ _ _ _ (ShowInformation_eq _ _ _)).
    intros [= <- <-]. exists w2. eexists.
    rewrite shown_dataList, shown_trace.
    repeat split. apply depth_maps_read_shown.
Qed.

Lemma loaded_in_order a w b w' :
  containers_open fs a →
  CreateReconstructionData num_get fs a w = Ok b w' →
  ∃ tr, trace w' = trace w ++ tr ∧
        omap DepthMap (g_dataList w') `sublist_of` depth_maps_read tr ∧
        Forall (calibrated_by_name num_get fs a) (g_dataList w').
Proof.
  intros [[dmap Hdmap] [krt Hkrt]] Hrun.
  destruct (CreateReconstructionData_open _ _ _ _ _ _ Hdmap Hkrt Hrun)
    as (w2 & extra & Hloop & Hdl & Htr & Hextra).
  eapply wp_Ok in Hloop; [| apply ReadContainers_order; [done |]].
  2: { unfold rounds_left. simpl. lia. }
  destruct Hloop as (tr & views & Htr2 & Hdl2 & Hsub & Hcal).
  simpl in Htr2, Hdl2. rewrite shown_trace in Htr2.
  eexists. split; [by rewrite Htr, Htr2, <- !app_assoc |].
  rewrite Hdl, Hdl2. split; [| done].
  by rewrite !depth_maps_read_app, depth_maps_read_shown, Hextra, app_nil_r.
Qed.

(** X17.  The views are loaded in the order of the depth-map list: the
    depth maps of [g_dataList], taken in order, are among the depth maps
    that were read, taken in the order of reading. *)
Theorem views_keep_list_order a w b w' :
  containers_open fs a →
  CreateReconstructionData num_get fs a w = Ok b w' →
  ∃ tr, trace w' = trace w ++ tr ∧
        omap DepthMap (g_dataList w') `sublist_of` depth_maps_read tr.
Proof.
  intros Hopen Hrun.
  destruct (loaded_in_order a w b w' Hopen Hrun) as (tr & ? & ? & _).
  by exists tr.
Qed.

(** X18.  When both container files open, the matrices K and TR of every
    loaded view are those that [ReadKrtdFile] returned, with [true], for
    the path made of [g_pathFolder], a backslash and a name that holds no
    '/' (the name may hold backslashes). *)
Theorem calibration_names_hold_no_slash a w b w' :
  containers_open fs a →
  CreateReconstructionData num_get fs a w = Ok b w' →
  Forall (calibrated_by_name num_get fs a) (g_dataList w').
Proof.
  intros Hopen Hrun.
  by destruct (loaded_in_order a w b w' Hopen Hrun) as (tr & _ & _ & ?).
Qed.

End LoadingOrder.

(** ** The further properties at the sample inputs *)

Example plain_run_loads :
  CreateReconstructionData digits_num_get sample_files plain_run initial_world
  = Ok true loaded_world.
Proof. vm_compute. reflexivity. Qed.

Example plain_run_ends :
  main digits_num_get blank_to_string sample_files 1 plain_run initial_world
  = Ok EXIT_SUCCESS plain_run_end.
Proof. vm_compute. reflexivity. Qed.

Example skewed_run_ends :
  main digits_num_get blank_to_string sample_files 1 skewed_run initial_world
  = Ok EXIT_FAILURE skewed_run_end.
Proof. vm_compute. reflexivity. Qed.

Lemma ReadKrtdFile_layout_witness :
  ReadKrtdFile digits_num_get sample_files "data\cam0.krtd"
    Matrix3x3.New Matrix4x4.New initial_world
  = Ok (true,
        row3 (three_values digits_num_get "1 0 0")
        ++ row3 (three_values digits_num_get "0 1 0")
        ++ row3 (three_values digits_num_get "0 0 1"),
        pose_matrix (three_values digits_num_get "1 0 0")
          (three_values digits_num_get "0 1 0")
          (three_values digits_num_get "0 0 1")
          (three_values digits_num_get (first_line ("0 0 5" +:+ endl))))
       initial_world.
Proof.
  apply (ReadKrtdFile_layout digits_num_get sample_files "data\cam0.krtd"
           Matrix3x3.New Matrix4x4.New initial_world
           "1 0 0" "0 1 0" "0 0 1" EmptyString
           "1 0 0" "0 1 0" "0 0 1" EmptyString ("0 0 5" +:+ endl)).
  - vm_compute. reflexivity.
  - repeat constructor.
  - reflexivity.
  - reflexivity.
Defined.

Lemma ReadKrtdFile_one_line_witness :
  let v := three_values digits_num_get "1 2" in
  ReadKrtdFile digits_num_get one_line_files "x.krtd"
    Matrix3x3.New Matrix4x4.New initial_world
  = Ok (true, row3 v ++ row3 v ++ row3 v, pose_matrix v v v v) initial_world.
Proof.
  apply (ReadKrtdFile_one_line digits_num_get one_line_files "x.krtd"
           Matrix3x3.New Matrix4x4.New initial_world "1 2");
    reflexivity.
Defined.

Lemma ReadKrtdFile_keeps_sizes_witness :
  length [Num 1; Num 2; Indeterminate;
          Num 1; Num 2; Indeterminate;
          Num 1; Num 2; Indeterminate] = length Matrix3x3.New ∧
  length [Num 1; Num 2; Indeterminate; Num 1;
          Num 1; Num 2; Indeterminate; Num 2;
          Num 1; Num 2; Indeterminate; Indeterminate;
          Num 0; Num 0; Num 0; Num 1] = length Matrix4x4.New ∧
  (true = true → initial_world = initial_world) ∧
  (true = false →
   [Num 1; Num 2; Indeterminate;
    Num 1; Num 2; Indeterminate;
    Num 1; Num 2; Indeterminate] = Matrix3x3.New ∧
   [Num 1; Num 2; Indeterminate; Num 1;
    Num 1; Num 2; Indeterminate; Num 2;
    Num 1; Num 2; Indeterminate; Indeterminate;
    Num 0; Num 0; Num 0; Num 1] = Matrix4x4.New ∧
   initial_world
   = add_event (cerr ("Unable to open krtd file : " +:+ "x.krtd" +:+ endl))
       initial_world).
Proof.
  apply (ReadKrtdFile_keeps_sizes digits_num_get one_line_files "x.krtd"
           Matrix3x3.New Matrix4x4.New initial_world).
  vm_compute. reflexivity.
Defined.

Lemma depth_maps_read_are_loaded_or_reported_witness :
  ∃ tr, trace loaded_world = trace initial_world ++ tr ∧
        reads tr = length (g_dataList loaded_world) + errors tr.
Proof.
  apply (depth_maps_read_are_loaded_or_reported digits_num_get sample_files
           plain_run initial_world true loaded_world).
  - split; eexists; vm_compute; reflexivity.
  - vm_compute. reflexivity.
Defined.

Lemma depth_map_names_hold_no_slash_witness :
  Forall (read_by_name plain_run (trace loaded_world))
    (g_dataList loaded_world).
Proof.
  apply (depth_map_names_hold_no_slash digits_num_get sample_files
           plain_run initial_world true loaded_world).
  - split; eexists; vm_compute; reflexivity.
  - vm_compute. reflexivity.
Defined.

Lemma CreateReconstructionData_true_iff_witness :
  (true = true
   ↔ containers_open sample_files plain_run ∧ g_dataList loaded_world ≠ []) ∧
  (¬ containers_open sample_files plain_run →
   g_dataList loaded_world = g_dataList initial_world ∧
   ∃ tr, trace loaded_world = trace initial_world ++ tr ∧ reads tr = 0).
Proof.
  apply (CreateReconstructionData_true_iff digits_num_get sample_files
           plain_run initial_world true loaded_world).
  vm_compute. reflexivity.
Defined.

Lemma blank_matrix_line_is_undefined_witness :
  CreateReconstructionData digits_num_get no_matrix_files plain_run
    initial_world = Undefined.
Proof.
  apply (blank_matrix_line_is_undefined digits_num_get no_matrix_files
           plain_run initial_world "depth0.vti" EmptyString).
  - vm_compute. reflexivity.
  - vm_compute. reflexivity.
  - vm_compute. discriminate.
  - reflexivity.
Defined.

Lemma quiet_run_prints_nothing_on_stdout_witness :
  Forall (λ e, is_cout e = false)
    (final_trace
       (main digits_num_get blank_to_string sample_files 1 plain_run
          initial_world)).
Proof.
  apply quiet_run_prints_nothing_on_stdout;
    [reflexivity | discriminate | reflexivity].
Defined.

Lemma successful_run_pipeline_witness :
  grid_written plain_run plain_run_end ∧
  g_dataList plain_run_end = [] ∧ g_gridMatrix plain_run_end = None.
Proof.
  apply (successful_run_pipeline digits_num_get blank_to_string
           sample_files 1 plain_run plain_run_end).
  vm_compute. reflexivity.
Defined.

Lemma exit_status_tells_grid_written_witness :
  (EXIT_SUCCESS = EXIT_SUCCESS ∨ EXIT_SUCCESS = EXIT_FAILURE) ∧
  (EXIT_SUCCESS = EXIT_SUCCESS
   ↔ ∃ input,
       GridWriterWrite (g_outputGridFilename plain_run) input
       ∈ trace plain_run_end).
Proof.
  apply (exit_status_tells_grid_written digits_num_get blank_to_string
           sample_files 1 plain_run EXIT_SUCCESS plain_run_end).
  vm_compute. reflexivity.
Defined.

Lemma failing_run_is_reported_witness :
  reported skewed_run (trace skewed_run_end).
Proof.
  apply (failing_run_is_reported digits_num_get blank_to_string
           sample_files 1 skewed_run skewed_run_end).
  vm_compute. reflexivity.
Defined.

Lemma views_keep_list_order_witness :
  ∃ tr, trace loaded_world = trace initial_world ++ tr ∧
        omap DepthMap (g_dataList loaded_world)
        `sublist_of` depth_maps_read tr.
Proof.
  apply (views_keep_list_order digits_num_get sample_files
           plain_run initial_world true loaded_world).
  - split; eexists; vm_compute; reflexivity.
  - vm_compute. reflexivity.
Defined.

Lemma calibration_names_hold_no_slash_witness :
  Forall (calibrated_by_name digits_num_get sample_files plain_run)
    (g_dataList loaded_world).
Proof.
  apply (calibration_names_hold_no_slash digits_num_get sample_files
           plain_run initial_world true loaded_world).
  - split; eexists; vm_compute; reflexivity.
  - vm_compute. reflexivity.
Defined.

(** ** One depth map per line, and the grid that is not checked *)

Lemma count_lines_Some s seen l rest :
  take_line "010" s = (l, Some rest) →
  count_lines s seen
  = (if seen || negb (is_empty l) then 1 else 0) + count_lines rest false.
Proof.
  revert seen l. induction s as [|c s IH]; intros seen l; simpl; [done |].
  destruct (Ascii.eqb c "010").
  - intros [= <- <-]. simpl. by rewrite orb_false_r.
  - destruct (take_line "010" s) as [l' k]. intros [= <- ->].
    rewrite (IH true l' eq_refl). simpl. by rewrite orb_true_r.
Qed.

Lemma count_lines_None s seen l :
  take_line "010" s = (l, None) →
  count_lines s seen = if seen || negb (is_empty l) then 1 else 0.
Proof.
  revert seen l. induction s as [|c s IH]; intros seen l; simpl.
  - intros [= <-]. simpl. by rewrite orb_false_r.
  - destruct (Ascii.eqb c "010"); [done |].
    destruct (take_line "010" s) as [l' k]. intros [= <- ->].
    rewrite (IH true l' eq_refl). simpl. by rewrite orb_true_r.
Qed.

Lemma SplitString_length_0 l delim elems :
  SplitString l delim [] = Some elems →
  (length elems =? 0)%nat = is_empty l.
Proof.
  rewrite SplitString_pieces, app_nil_l. intros [= <-].
  destruct (pieces_from delim l EmptyString) as [|p ps] eqn:Hps.
  - by apply pieces_from_nil in Hps as [-> _].
  - destruct l; [| done]. discriminate Hps.
Qed.

Section LinesAndGrid.
Context (num_get : string → option double * string).
Context (to_string : double → string).
Context (fs : gmap string string).
Context (ExecutionTime : double).

Lemma ReadContainers_reads a fuel c w :
  sane (depthMapContainer c) →
  rounds_left (depthMapContainer c) < fuel →
  wp (ReadContainers num_get fs fuel a c)
     (λ _ w', ∃ tr, trace w' = trace w ++ tr ∧
                    reads tr = pending_lines (depthMapContainer c))
     (λ _ _, False) w.
Proof.
  revert c w. induction fuel as [|fuel IH]; intros c w Hsane Hfuel; [lia |].
  simpl. unfold pending_lines. unfold eof.
  destruct (eofbit (depthMapContainer c)) eqn:Heof.
  { apply wp_ret. exists []. by rewrite app_nil_r. }
  destruct (getline (depthMapContainer c) (depthMapPath c) "010")
    as [dmc path] eqn:Hline.
  destruct (getline_progress _ _ _ _ _ Heof Hsane Hline) as [Hsane' Hless].
  assert (rounds_left dmc < fuel) as Hfuel' by lia.
  assert (nonblank_lines (buf (depthMapContainer c))
          = (if is_empty path then 0 else 1) + pending_lines dmc) as Hcount.
  { unfold getline, good in Hline. rewrite Heof, (Hsane Heof) in Hline.
    simpl in Hline. unfold nonblank_lines, pending_lines.
    destruct (take_line "010" (buf (depthMapContainer c)))
      as [l [rest|]] eqn:Htake; injection Hline as <- <-; simpl.
    - rewrite (count_lines_Some _ _ _ _ Htake). by destruct (is_empty l).
    - rewrite (count_lines_None _ _ _ Htake). by destruct (is_empty l). }
  rewrite Hcount.
  apply wp_bind, wp_fuelled; [apply SplitString_total |]. intros elems Helems.
  rewrite (SplitString_length_0 _ _ _ Helems).
  destruct (is_empty path); [by apply IH |].
  apply wp_bind, wp_defined. intros name _.
  apply wp_bind, wp_emit.
  destruct (getline (matrixContainer c) (matrixPath c) "010") as [mc mpath].
  apply wp_bind, wp_fuelled; [apply SplitString_total |]. intros elems' _.
  apply wp_bind, wp_defined. intros name' _.
  apply wp_bind.
  set (p := g_pathFolder a +:+ backslash +:+ name).
  destruct (ReadKrtdFile_cases num_get fs
              (g_pathFolder a +:+ backslash +:+ name')
              Matrix3x3.New Matrix4x4.New (add_event (ReaderUpdate p) w))
    as [[Hnone Hread] | [Hsome (K & TR & _ & Hread)]].
  - unfold wp at 1. rewrite Hread. simpl.
    eapply wp_mono; [apply IH; try done | | done].
    intros _ w' (tr & Htr & Hreads). simpl in Htr.
    eexists (ReaderUpdate p :: cerr _ :: tr).
    split; [by rewrite Htr, <- !app_assoc |].
    unfold reads in *. simpl. by rewrite Hreads.
  - unfold wp at 1. rewrite Hread. simpl.
    apply wp_bind, wp_get_dataList. apply wp_bind. unfold wp at 1. simpl.
    eapply wp_mono; [apply IH; try done | | done].
    intros _ w' (tr & Htr & Hreads). simpl in Htr.
    eexists (ReaderUpdate p :: tr).
    split; [by rewrite Htr, <- !app_assoc |].
    unfold reads in *. simpl. by rewrite Hreads.
Qed.

Lemma reads_none tr : depth_maps_read tr = [] → reads tr = 0.
Proof.
  unfold depth_maps_read, reads.
  induction tr as [|e tr IH]; [done |]. simpl.
  destruct e; simpl; try done.
Qed.

(** X19.  When both container files open and [CreateReconstructionData]
    returns, it has read one depth map for each line of the depth-map
    list that holds at least one character, no more and no less. *)
Theorem one_depth_map_read_per_line a w b w' dmap :
  fs !! (g_pathFolder a +:+ backslash +:+ g_depthMapContainer a) = Some dmap →
  is_Some (fs !! (g_pathFolder a +:+ backslash +:+ g_KRTContainer a)) →
  CreateReconstructionData num_get fs a w = Ok b w' →
  ∃ tr, trace w' = trace w ++ tr ∧ reads tr = nonblank_lines dmap.
Proof.
  intros Hdmap [krt Hkrt] Hrun.
  destruct (CreateReconstructionData_open _ _ _ _ _ _ _ _ Hdmap Hkrt Hrun)
    as (w2 & extra & Hloop & _ & Htr & Hextra).
  eapply wp_Ok in Hloop; [| apply ReadContainers_reads; [done |]].
  2: { unfold rounds_left. simpl. lia. }
  destruct Hloop as (tr & Htr2 & Hreads).
  simpl in Htr2, Hreads. rewrite shown_trace in Htr2.
  eexists. split; [by rewrite Htr, Htr2, <- !app_assoc |].
  rewrite !reads_app, Hreads, (reads_none extra Hextra).
  unfold pending_lines. simpl. destruct (verbose a); simpl; lia.
Qed.

(** X20.  The grid dimensions, spacing and origin are read without any
    check of how many values were given: a run that passed the
    validation of its arguments and loaded its views has undefined
    behaviour when one of the three holds fewer than three values. *)
Theorem short_grid_is_undefined a w1 w2 :
  ReadArguments a initial_world = Ok true w1 →
  (ShowInformation a "---START---";;
   CreateReconstructionData num_get fs a) w1 = Ok true w2 →
  ¬ grid_complete a →
  main num_get to_string fs ExecutionTime a initial_world = Undefined.
Proof.
  intros Hargs Hload Hshort. unfold main.
  rewrite (bind_Ok _ _ _ _ _ Hargs).
  cbv beta. change (negb true) with false. cbv iota.
  rewrite (bind_Ok _ _ _ _ _ (ShowInformation_eq _ _ _)) in Hload.
  rewrite (bind_Ok _ _ _ _ _ (ShowInformation_eq _ _ _)).
  rewrite (bind_Ok _ _ _ _ _ Hload).
  cbv beta. change (negb true) with false. cbv iota.
  assert (three_components a) as (HX & HY & HZ).
  { apply AreVectorsOrthogonal_is_Some.
    destruct (ReadArguments_cases a initial_world)
      as [(_ & w' & H & _) | [(_ & _ & H) |
          [(_ & _ & w' & H & _) | (_ & Hv & _)]]];
      try (rewrite H in Hargs; discriminate Hargs).
    by eexists. }
  apply array3_is_Some in HX as [X HX], HY as [Y HY], HZ as [Z HZ].
  destruct (CreateGridMatrixFromInput_Ok to_string a w2 X Y Z HX HY HZ)
    as [info Hgrid].
  rewrite (bind_Ok _ _ _ _ _ Hgrid).
  destruct (array3 (g_gridDims a)) as [dims|] eqn:Hdims;
    [| by apply bind_Undefined].
  rewrite (bind_Ok _ _ _ dims _) by done.
  destruct (array3 (g_gridSpacing a)) as [spacing|] eqn:Hspacing;
    [| by apply bind_Undefined].
  rewrite (bind_Ok _ _ _ spacing _) by done.
  destruct (array3 (g_gridOrigin a)) as [origin|] eqn:Horigin;
    [| by apply bind_Undefined].
  exfalso. apply Hshort. unfold grid_complete.
  rewrite <- !array3_is_Some, Hdims, Hspacing, Horigin.
  repeat split; by eexists.
Qed.

End LinesAndGrid.

Lemma one_depth_map_read_per_line_witness :
  ∃ tr, trace loaded_world = trace initial_world ++ tr ∧
        reads tr
        = nonblank_lines ("a/depth0.vti" +:+ endl +:+ "depth1.vti" +:+ endl).
Proof.
  apply (one_depth_map_read_per_line digits_num_get sample_files
           plain_run initial_world true loaded_world).
  - vm_compute. reflexivity.
  - eexists. vm_compute. reflexivity.
  - vm_compute. reflexivity.
Defined.

Lemma short_grid_is_undefined_witness :
  main digits_num_get blank_to_string sample_files 1 dimless_run
    initial_world = Undefined.
Proof.
  apply (short_grid_is_undefined digits_num_get blank_to_string sample_files
           1 dimless_run initial_world loaded_world).
  - reflexivity.
  - vm_compute. reflexivity.
  - vm_compute. lia.
Defined.
